(** * A shallow embedding of the Salt execution module [cachet.py]

    The module is a thin client of the Cachet status-page REST API.  Its
    logic sits in three places: the schema table
    [CACHET_PARAMS_DEFINITION], the argument builder [_build_args] with the
    two status checks, and the request executor [_query].  The wrappers
    ([add_component], [update_component], ...) compose them.

    Python values are embedded as the inductive [pyval]; dictionaries that
    the code only reads by key are [gmap string pyval]; the schema of one
    operation is an association list, because the builder iterates over
    it and the first missing field decides the error message (the list
    is in the order of the dict literal, the order of [.items()] since
    Python 3.7).  Exceptions
    are results of type [outcome]; the HTTP transport is the only effect
    and is recorded as the list of requests a call has issued ([io]).
    Calls to the logger change neither results nor requests and are left
    out. *)

From Stdlib Require Import ZArith String Ascii List DecimalString.
From stdpp Require Import gmap strings list fin_maps.

#[local] Set Warnings "-register-all".
#[local] Open Scope Z_scope.
#[local] Open Scope string_scope.

(** ** Python values *)

Inductive pyval : Type :=
| PNone
| PBool (b : bool)
| PInt (z : Z)
| PStr (s : string)
| PList (l : list pyval)
| PDict (d : gmap string pyval).

(** Python's truth value: [None], [False], [0], [''], [[]] and [{}] are
    false, everything else is true. *)
Definition truthy (v : pyval) : bool :=
  match v with
  | PNone => false
  | PBool b => b
  | PInt z => negb (z =? 0)%Z
  | PStr s => negb (String.eqb s "")
  | PList l => match l with [] => false | _ :: _ => true end
  | PDict d => negb (bool_decide (d = ∅))
  end.

(** [a or b] *)
Definition py_or (a b : pyval) : pyval := if truthy a then a else b.

(** ** Exceptions and the two effect layers *)

Inductive exn : Type :=
| Exception_ (msg : string)        (* raise Exception(msg) *)
| KeyError (key : string)
| NameError (name : string)
| UnboundLocalError (name : string)
| AttributeError (attr : string)
| TypeError
| ValueError.

Inductive outcome (A : Type) : Type :=
| Returned (a : A)
| Raised (e : exn).
Arguments Returned {A} a.
Arguments Raised {A} e.

#[global] Instance outcome_ret : MRet outcome := @Returned.
#[global] Instance outcome_bind : MBind outcome := λ A B f m,
  match m with
  | Returned a => f a
  | Raised e => Raised e
  end.

Definition raises {A} (m : outcome A) : Prop := ∃ e, m = Raised e.

(** ** Conversions and formatting *)

Definition string_of_Z (z : Z) : string := NilZero.string_of_int (Z.to_int z).

Definition is_space (c : ascii) : bool :=
  let n := nat_of_ascii c in
  (Nat.eqb n 32 || (Nat.leb 9 n && Nat.leb n 13)
   || (Nat.leb 28 n && Nat.leb n 31))%bool.

Definition digit_of (c : ascii) : option Z :=
  let n := Z.of_nat (nat_of_ascii c) in
  if ((48 <=? n)%Z && (n <=? 57)%Z)%bool then Some (n - 48)%Z else None.

Fixpoint lstrip (s : string) : string :=
  match s with
  | String c s' => if is_space c then lstrip s' else s
  | EmptyString => s
  end.

Fixpoint all_space (s : string) : bool :=
  match s with
  | String c s' => (is_space c && all_space s')%bool
  | EmptyString => true
  end.

(** Digits, single underscores between digits, then only white space. *)
Fixpoint parse_digits (acc : Z) (s : string) : option Z :=
  match s with
  | EmptyString => Some acc
  | String c s' =>
      match digit_of c with
      | Some d => parse_digits (10 * acc + d)%Z s'
      | None =>
          if Ascii.eqb c "_" then
            match s' with
            | String c' _ =>
                match digit_of c' with
                | Some _ => parse_digits acc s'
                | None => None
                end
            | EmptyString => None
            end
          else if all_space s then Some acc else None
      end
  end.

Definition parse_unsigned (s : string) : option Z :=
  match s with
  | String c _ => match digit_of c with Some _ => parse_digits 0 s | None => None end
  | EmptyString => None
  end.

(** [int(s)] for a string of ASCII characters, as CPython 3 reads it:
    white space (9 to 13, 28 to 32), an optional sign, decimal digits that
    single underscores may group, white space.  Every other string is a
    [ValueError].  Floats are not part of [pyval]. *)
Definition parse_int (s : string) : option Z :=
  match lstrip s with
  | String "-" s' => Z.opp <$> parse_unsigned s'
  | String "+" s' => parse_unsigned s'
  | s' => parse_unsigned s'
  end.

(** The builtin [int(data)]. *)
Definition py_int (data : pyval) : outcome Z :=
  match data with
  | PInt z => Returned z
  | PBool b => Returned (if b then 1 else 0)
  | PStr s => match parse_int s with Some z => Returned z | None => Raised ValueError end
  | PNone | PList _ | PDict _ => Raised TypeError
  end.

(** One [%d] conversion of the [%] operator: a number is required. *)
Definition fmt_d (v : pyval) : outcome string :=
  match v with
  | PInt z => Returned (string_of_Z z)
  | PBool b => Returned (if b then "1" else "0")
  | _ => Raised TypeError
  end.

(** [d[key]] on a dict. *)
Definition getitem (d : gmap string pyval) (key : string) : outcome pyval :=
  match d !! key with
  | Some v => Returned v
  | None => Raised (KeyError key)
  end.

(** ['key' in v], [v['key']] and [v.get('key')] on a value that the
    transport has decoded from JSON and that need not be a dict. *)
Definition is_str (key : string) (v : pyval) : bool :=
  match v with PStr s => String.eqb s key | _ => false end.

Definition substring_of (key s : string) : bool :=
  match index 0 key s with Some _ => true | None => false end.

Definition py_in (key : string) (v : pyval) : outcome bool :=
  match v with
  | PDict d => Returned (bool_decide (is_Some (d !! key)))
  | PList l => Returned (existsb (is_str key) l)
  | PStr s => Returned (substring_of key s)
  | PNone | PBool _ | PInt _ => Raised TypeError
  end.

Definition py_getitem (v : pyval) (key : string) : outcome pyval :=
  match v with
  | PDict d => getitem d key
  | _ => Raised TypeError
  end.

Definition py_get (v : pyval) (key : string) : outcome pyval :=
  match v with
  | PDict d => Returned (default PNone (d !! key))
  | _ => Raised (AttributeError "get")
  end.

(** ** The schema registry *)

Record field_spec : Type := { mandatory : bool; default_ : option pyval }.

(** [{'mandatory': m}] and [{'mandatory': m, 'default': d}] *)
Definition fld (m : bool) : field_spec := {| mandatory := m; default_ := None |}.
Definition fld_d (m : bool) (d : pyval) : field_spec :=
  {| mandatory := m; default_ := Some d |}.

Definition schema : Type := list (string * field_spec).

Fixpoint assoc {V : Type} (k : string) (l : list (string * V)) : option V :=
  match l with
  | [] => None
  | (k', v) :: l' => if String.eqb k k' then Some v else assoc k l'
  end.

Definition CACHET_PARAMS_DEFINITION : list (string * list (string * schema)) :=
  [ ("components",
      [ ("add",
          [ ("name", fld true);
            ("status", fld true);
            ("description", fld_d false PNone);
            ("link", fld_d false PNone);
            ("order", fld_d false (PInt 0));
            ("group_id", fld_d false PNone);
            ("enabled", fld_d false (PBool true)) ]);
        ("update",
          [ ("name", fld false);
            ("status", fld false);
            ("link", fld_d false PNone);
            ("order", fld_d false PNone);
            ("group_id", fld_d false PNone) ]) ]);
    ("components.groups",
      [ ("add",
          [ ("name", fld true);
            ("order", fld_d false (PInt 0)) ]);
        ("update",
          [ ("name", fld_d false PNone);
            ("order", fld_d false PNone) ]) ]);
    ("incidents",
      [ ("add",
          [ ("name", fld true);
            ("message", fld true);
            ("status", fld true);
            ("visible", fld_d true (PInt 1));
            ("component_id", fld_d false PNone);
            ("component_status", fld_d false PNone);
            ("notify", fld_d false (PBool false)) ]);
        ("update",
          [ ("name", fld false);
            ("message", fld false);
            ("status", fld false);
            ("visible", fld_d false (PInt 1));
            ("component_id", fld false);
            ("notify", fld false) ]) ]);
    ("metrics",
      [ ("add",
          [ ("name", fld true);
            ("suffix", fld true);
            ("description", fld true);
            ("default_value", fld_d true (PInt 0));
            ("display_chart", fld_d false (PInt 1)) ]) ]);
    ("metrics.points",
      [ ("add",
          [ ("value", fld true) ]) ]) ].

(** The operation schema of a (resource, operation) pair, when declared. *)
Definition schema_of (obj method : string) : option schema :=
  ops ← assoc obj CACHET_PARAMS_DEFINITION; assoc method ops.

(** ** The argument builder *)

(** The two dicts [_build_args] returns: [{'res': True, 'data': args}] and
    [{'res': False, 'message': msg}]. *)
Inductive build_ret : Type :=
| BuildData (data : gmap string pyval)
| BuildMissing (message : string).

Definition res_of (t : build_ret) : bool :=
  match t with BuildData _ => true | BuildMissing _ => false end.

Definition missing_msg (k : string) : string :=
  "Mandatory params " ++ k ++ " is missing".

(** The [for k, config in ....items()] loop, [args] being the dict built
    so far. *)
Fixpoint build_loop (kwargs : gmap string pyval) (items : schema)
    (args : gmap string pyval) : build_ret :=
  match items with
  | [] => BuildData args
  | (k, config) :: rest =>
      if mandatory config then
        match kwargs !! k with
        | None =>
            match default_ config with
            | Some d => build_loop kwargs rest (<[k := d]> args)
            | None => BuildMissing (missing_msg k)
            end
        | Some v => build_loop kwargs rest (<[k := v]> args)
        end
      else
        match kwargs !! k with
        | Some v => build_loop kwargs rest (<[k := v]> args)
        | None =>
            match default_ config with
            | Some d =>
                if truthy d then build_loop kwargs rest (<[k := d]> args)
                else build_loop kwargs rest args
            | None => build_loop kwargs rest args
            end
        end
  end.

Definition _build_args (obj method : string) (kwargs : gmap string pyval)
    : outcome build_ret :=
  match assoc obj CACHET_PARAMS_DEFINITION with
  | None => Raised (Exception_ (obj ++ " not in CACHET_PARAMS_DEFINITION"))
  | Some ops =>
      match assoc method ops with
      | None =>
          Raised (Exception_
                    (method ++ " not in CACHET_PARAMS_DEFINITION[" ++ obj ++ "]"))
      | Some items => Returned (build_loop kwargs items ∅)
      end
  end.

(** The call [_build_args(obj, method, **kwargs)] of the wrappers: a
    keyword named like one of the two positional parameters would give
    that parameter a second value, which is a [TypeError] of the call;
    [_build_args] is not entered. *)
Definition keyword_clash (kwargs : gmap string pyval) : bool :=
  match kwargs !! "obj", kwargs !! "method" with
  | None, None => false
  | _, _ => true
  end.

Definition call_build_args (obj method : string) (kwargs : gmap string pyval)
    : outcome build_ret :=
  if keyword_clash kwargs then Raised TypeError
  else _build_args obj method kwargs.

(** ** The status checks *)

Definition _check_component_status (data : pyval) : outcome unit :=
  status ← py_int data;
  if ((status <? 1)%Z || (4 <? status)%Z)%bool then
    Raised (Exception_ ("Wrong component status " ++ string_of_Z status
                        ++ ", must be between 1 and 4"))
  else Returned tt.

Definition _check_incident_status (data : pyval) : outcome unit :=
  status ← py_int data;
  if ((status <? 0)%Z || (4 <? status)%Z)%bool then
    Raised (Exception_ ("Wrong incident status " ++ string_of_Z status
                        ++ ", must be between 0 and 4"))
  else Returned tt.

(** ** Requests, the host framework and the [io] layer *)

(** What [_query] hands to [salt.utils.http.query]; [decode], [status] and
    [opts] are the same in every call. *)
Record request : Type := {
  req_url : pyval;
  req_method : string;
  req_params : gmap string pyval;
  req_data : pyval;
  req_header_dict : gmap string pyval
}.

(** The collaborators the module reaches through globals:
    [__salt__['config.get']]; [salt.utils.http.query], which the loader of
    the host has imported and whose answer is a dict with entries such as
    [status], [dict] (the decoded body) and [error]; and [urljoin] of the
    standard library with its [allow_fragments] flag. *)
Record host : Type := {
  config_get : string → pyval;
  http_query : request → gmap string pyval;
  urljoin : pyval → pyval → bool → outcome pyval
}.

(** A computation: the requests it has issued, then how it ended. *)
Record io (A : Type) : Type := IO { sent : list request; result : outcome A }.
Arguments IO {A} sent result.
Arguments sent {A} i.
Arguments result {A} i.

#[global] Instance io_ret : MRet io := λ A a, IO [] (Returned a).
#[global] Instance io_bind : MBind io := λ A B f m,
  match result m with
  | Returned a => IO (sent m ++ sent (f a)) (result (f a))
  | Raised e => IO (sent m) (Raised e)
  end.

Definition lift {A} (m : outcome A) : io A := IO [] m.
Definition throw {A} (e : exn) : io A := IO [] (Raised e).

(** What the public functions return: the dict [{'message': m, 'res': r}]
    or the bare [True] of the 204 branch. *)
Inductive retval : Type :=
| RetDict (message : pyval) (res : bool)
| RetTrue.

Definition OK : Z := 200.
Definition NO_CONTENT : Z := 204.

(** [result.get('status', None) == code] *)
Definition status_is (code : Z) (result : gmap string pyval) : bool :=
  match result !! "status" with
  | Some (PInt z) => (z =? code)%Z
  | _ => false
  end.

Definition no_key : retval := RetDict (PStr "No Cachet api key found.") false.

Section Query.
Context (h : host).

Definition send (r : request) : io (gmap string pyval) :=
  IO [r] (Returned (http_query h r)).

(** The [if]/[elif]/[else] on the transport's answer.  [ret] starts as
    [{'message': '', 'res': True}]; the last branch reads the local
    [_result], which only the first branch assigns. *)
Definition query_result (result : gmap string pyval) : outcome retval :=
  if status_is OK result then
    _result ← getitem result "dict";
    has_error ← py_in "error" _result;
    if has_error : bool then
      message ← py_getitem _result "error";
      Returned (RetDict message false)
    else
      message ← py_get _result "data";
      Returned (RetDict message true)
  else if status_is NO_CONTENT result then
    Returned RetTrue
  else
    match result !! "error" with
    | Some message => Returned (RetDict message false)
    | None => Raised (UnboundLocalError "_result")
    end.

(** From [base_url = ...] to the end of [_query]. *)
Definition query_send (function : string) (api_url api_token : pyval)
    (auth : bool) (args : pyval) (method : string)
    (header_dict : option (gmap string pyval)) (data : pyval) : io retval :=
  base_url ← lift (urljoin h api_url (PStr "/api/v1/") true);
  url ← lift (urljoin h base_url (PStr function) false);
  let query_params := match args with PDict d => d | _ => ∅ end in
  let header_dict := default ∅ header_dict in
  let header_dict :=
    if auth then
      match header_dict !! "X-Cachet-Token" with
      | None => <["X-Cachet-Token" := api_token]> header_dict
      | Some _ => header_dict
      end
    else header_dict in
  result ← send {| req_url := url; req_method := method;
                   req_params := query_params; req_data := data;
                   req_header_dict := header_dict |};
  lift (query_result result).

(** The [if auth:] block that resolves the token. *)
Definition query_auth (function : string) (api_url api_token : pyval)
    (auth : bool) (args : pyval) (method : string)
    (header_dict : option (gmap string pyval)) (data : pyval) : io retval :=
  if auth then
    if truthy api_token then
      query_send function api_url api_token auth args method header_dict data
    else
      let api_token := py_or (config_get h "cachet.api_token")
                             (config_get h "cachet:api_token") in
      if truthy api_token then
        query_send function api_url api_token auth args method header_dict data
      else mret no_key
  else query_send function api_url api_token auth args method header_dict data.

Definition _query (function : string) (api_url api_token : pyval)
    (auth : bool) (args : pyval) (method : string)
    (header_dict : option (gmap string pyval)) (data : pyval) : io retval :=
  if truthy api_url then
    query_auth function api_url api_token auth args method header_dict data
  else
    let api_url := py_or (config_get h "cachet.api_url")
                         (config_get h "cachet:api_url") in
    if truthy api_url then
      query_auth function api_url api_token auth args method header_dict data
    else mret no_key.

(** ** The resource operations the claims are about *)

Definition get_components (id api_url api_token : pyval) : io retval :=
  function ← (if truthy id then
                s ← lift (fmt_d id); mret ("components/" ++ s)
              else mret "components");
  _query function api_url api_token false PNone "GET" None PNone.

(** [if not test['res']: return test], else go on with [test['data']]. *)
Definition with_args (test : build_ret)
    (k : gmap string pyval → io retval) : io retval :=
  match test with
  | BuildMissing message => mret (RetDict (PStr message) false)
  | BuildData args => k args
  end.

Definition add_component (api_url api_token : pyval)
    (kwargs : gmap string pyval) : io retval :=
  test ← lift (call_build_args "components" "add" kwargs);
  with_args test (λ args,
    status ← lift (getitem args "status");
    lift (_check_component_status status);;
    let function := "components" in
    _query function api_url api_token true (PDict args) "POST" None PNone).

Definition update_component (id api_url api_token : pyval)
    (kwargs : gmap string pyval) : io retval :=
  test ← lift (call_build_args "components" "update" kwargs);
  with_args test (λ args,
    status ← lift (getitem args "status");
    (if truthy status then lift (_check_component_status status)
     else mret tt);;
    s ← lift (fmt_d id);
    let function := "components/" ++ s in
    _query function api_url api_token true (PDict args) "PUT" None PNone).

Definition update_incident (id api_url api_token : pyval)
    (kwargs : gmap string pyval) : io retval :=
  test ← lift (call_build_args "incidents" "update" kwargs);
  with_args test (λ args,
    status ← lift (getitem args "status");
    (if truthy status then lift (_check_incident_status status)
     else mret tt);;
    s ← lift (fmt_d id);
    let function := "incidents/" ++ s in
    _query function api_url api_token true (PDict args) "PUT" None PNone).

(** The call names [args], which the function never binds: the name is
    looked up while the arguments of the call are evaluated, so [_query]
    is not entered. *)
Definition delete_metric_point (metric_id id api_url api_token : pyval)
    : io retval :=
  m ← lift (fmt_d metric_id);
  i ← lift (fmt_d id);
  let function := "metrics/" ++ m ++ "/points/" ++ i in
  args ← throw (NameError "args");
  _query function api_url api_token true args "DELETE" None PNone.

(** ** The other resource operations *)

Definition ping (api_url : pyval) : io retval :=
  _query "ping" api_url PNone false PNone "GET" None PNone.

Definition delete_component (id api_url api_token : pyval) : io retval :=
  s ← lift (fmt_d id);
  let function := "components/" ++ s in
  _query function api_url api_token true PNone "DELETE" None PNone.

Definition get_components_groups (id api_url api_token : pyval) : io retval :=
  function ← (if truthy id then
                s ← lift (fmt_d id); mret ("components/groups/" ++ s)
              else mret "components/groups");
  _query function api_url api_token false PNone "GET" None PNone.

Definition add_component_group (api_url api_token : pyval)
    (kwargs : gmap string pyval) : io retval :=
  test ← lift (call_build_args "components.groups" "add" kwargs);
  with_args test (λ args,
    let function := "components/groups" in
    _query function api_url api_token true (PDict args) "POST" None PNone).

Definition update_component_group (id api_url api_token : pyval)
    (kwargs : gmap string pyval) : io retval :=
  test ← lift (call_build_args "components.groups" "update" kwargs);
  with_args test (λ args,
    s ← lift (fmt_d id);
    let function := "components/groups/" ++ s in
    _query function api_url api_token true (PDict args) "PUT" None PNone).

Definition delete_component_group (id api_url api_token : pyval) : io retval :=
  s ← lift (fmt_d id);
  let function := "components/groups/" ++ s in
  _query function api_url api_token true PNone "DELETE" None PNone.

Definition get_incidents (id api_url api_token : pyval) : io retval :=
  function ← (if truthy id then
                s ← lift (fmt_d id); mret ("incidents/" ++ s)
              else mret "incidents");
  _query function api_url api_token false PNone "GET" None PNone.

(** [if 'component_status' in args and args['component_status']:] *)
Definition add_incident (api_url api_token : pyval)
    (kwargs : gmap string pyval) : io retval :=
  test ← lift (call_build_args "incidents" "add" kwargs);
  with_args test (λ args,
    status ← lift (getitem args "status");
    lift (_check_incident_status status);;
    match args !! "component_status" with
    | Some component_status =>
        if truthy component_status
        then lift (_check_component_status component_status)
        else mret tt
    | None => mret tt
    end;;
    let function := "incidents" in
    _query function api_url api_token true (PDict args) "POST" None PNone).

Definition delete_incident (id api_url api_token : pyval) : io retval :=
  s ← lift (fmt_d id);
  let function := "incidents/" ++ s in
  _query function api_url api_token true PNone "DELETE" None PNone.

Definition get_metrics (id api_url api_token : pyval) : io retval :=
  function ← (if truthy id then
                s ← lift (fmt_d id); mret ("metrics/" ++ s)
              else mret "metrics");
  _query function api_url api_token false PNone "GET" None PNone.

Definition add_metric (api_url api_token : pyval)
    (kwargs : gmap string pyval) : io retval :=
  test ← lift (call_build_args "metrics" "add" kwargs);
  with_args test (λ args,
    let function := "metrics" in
    _query function api_url api_token true (PDict args) "POST" None PNone).

Definition delete_metric (id api_url api_token : pyval) : io retval :=
  s ← lift (fmt_d id);
  let function := "metrics/" ++ s in
  _query function api_url api_token true PNone "DELETE" None PNone.

(** With an id the path is formatted from [metric_ic], a name the function
    does not bind; the tuple of the [%] operator is built first. *)
Definition get_metrics_points (metric_id id api_url api_token : pyval)
    : io retval :=
  function ← (if truthy id then
                metric_ic ← throw (NameError "metric_ic");
                m ← lift (fmt_d metric_ic);
                i ← lift (fmt_d id);
                mret ("metrics/" ++ m ++ "/points/" ++ i)
              else
                m ← lift (fmt_d metric_id);
                mret ("metrics/" ++ m ++ "/points"));
  _query function api_url api_token false PNone "GET" None PNone.

Definition add_metric_point (metric_id api_url api_token : pyval)
    (kwargs : gmap string pyval) : io retval :=
  test ← lift (call_build_args "metrics.points" "add" kwargs);
  with_args test (λ args,
    m ← lift (fmt_d metric_id);
    let function := "metrics/" ++ m ++ "/points" in
    _query function api_url api_token true (PDict args) "POST" None PNone).

End Query.

(** ** A host to run the scenarios on *)

(** [urljoin] for the references the module builds, on a base with the
    scheme http or https or with no scheme: an absolute path replaces the
    path of the base, a relative one its last segment; the scheme comes
    out in lower case and the query and the fragment of the base are
    dropped.  Dot segments and empty segments do not occur in these
    references and are not resolved in the base. *)
Definition ends_netloc (c : ascii) : bool :=
  (Ascii.eqb c "/" || Ascii.eqb c "?" || Ascii.eqb c "#")%bool.

Fixpoint split_netloc (s : string) : string * string :=
  match s with
  | EmptyString => ("", "")
  | String c s' =>
      if ends_netloc c then ("", s)
      else let '(a, b) := split_netloc s' in (String c a, b)
  end.

Fixpoint strip_query (s : string) : string :=
  match s with
  | EmptyString => ""
  | String c s' =>
      if (Ascii.eqb c "?" || Ascii.eqb c "#")%bool then ""
      else String c (strip_query s')
  end.

Definition lower (c : ascii) : ascii :=
  let n := nat_of_ascii c in
  if (Nat.leb 65 n && Nat.leb n 90)%bool then ascii_of_nat (n + 32) else c.

Fixpoint lower_string (s : string) : string :=
  match s with
  | EmptyString => ""
  | String c s' => String (lower c) (lower_string s')
  end.

Definition split_origin (url : string) : string * string :=
  match index 0 "://" url with
  | Some n =>
      let k := (n + 3)%nat in
      let '(netloc, path) :=
        split_netloc (substring k (String.length url - k) url) in
      (lower_string (substring 0 k url) ++ netloc, strip_query path)
  | None => ("", strip_query url)
  end.

Fixpoint dirname (path : string) : string :=
  match path with
  | EmptyString => ""
  | String c p =>
      let d := dirname p in
      if Ascii.eqb c "/" then String c d
      else match d with EmptyString => "" | _ => String c d end
  end.

Definition urljoin_model (base url : pyval) (allow_fragments : bool)
    : outcome pyval :=
  match base, url with
  | PStr b, PStr u =>
      if String.eqb b "" then Returned url
      else if String.eqb u "" then Returned base
      else
        let '(origin, path) := split_origin b in
        if String.prefix "/" u then Returned (PStr (origin ++ u))
        else if String.eqb path "" then Returned (PStr (origin ++ "/" ++ u))
        else Returned (PStr (origin ++ dirname path ++ u))
  | _, _ => Raised TypeError
  end.

(** A minion whose configuration is [config] ([config.get] answers [''] for
    a key it does not know) and whose transport answers [answer]. *)
Definition example_host (config answer : gmap string pyval) : host :=
  {| config_get := λ key, default (PStr "") (config !! key);
     http_query := λ _, answer;
     urljoin := urljoin_model |}.

Definition example_config : gmap string pyval :=
  {[ "cachet.api_url" := PStr "https://status.example.com";
     "cachet.api_token" := PStr "peWcBiMOS9HrZG15" ]}.

(** * Properties *)

(** ** Association lists and the declared schemas *)

Lemma assoc_elem_of {V} (k : string) (l : list (string * V)) (v : V) :
  assoc k l = Some v → (k, v) ∈ l.
Proof.
  induction l as [|[k' v'] l IH]; simpl; [done|].
  destruct (String.eqb_spec k k') as [->|_].
  - intros [= ->]. left.
  - intros H. right. auto.
Qed.

Lemma assoc_fresh {V} (k : string) (l : list (string * V)) :
  k ∉ l.*1 → assoc k l = None.
Proof.
  induction l as [|[k' v'] l IH]; simpl; [done|].
  rewrite not_elem_of_cons. intros [Hne Hnotin].
  destruct (String.eqb_spec k k'); [done|auto].
Qed.

Lemma assoc_nodup {V} (k : string) (l : list (string * V)) (v : V) :
  NoDup l.*1 → (k, v) ∈ l → assoc k l = Some v.
Proof.
  induction l as [|[k' v'] l IH]; simpl.
  - intros _ H. by apply elem_of_nil in H.
  - rewrite NoDup_cons. intros [Hfresh Hnd] Hin.
    apply elem_of_cons in Hin as [[= -> ->]|Hin].
    + by rewrite String.eqb_refl.
    + destruct (String.eqb_spec k k') as [->|_]; [|auto].
      destruct Hfresh. apply (list_elem_of_fmap_2 fst) in Hin. done.
Qed.

(** Every declared schema, as the list the registry spells out. *)
Definition declared_schemas : list schema :=
  concat (map (λ o, map snd o.2) CACHET_PARAMS_DEFINITION).

Lemma schema_of_declared (obj method : string) (sch : schema) :
  schema_of obj method = Some sch → sch ∈ declared_schemas.
Proof.
  unfold schema_of. intros H.
  destruct (assoc obj CACHET_PARAMS_DEFINITION) as [ops|] eqn:Hobj; [|done].
  simpl in H. apply assoc_elem_of in Hobj, H.
  unfold declared_schemas. apply list_elem_of_In, in_concat.
  exists (map snd ops). split.
  - apply in_map_iff. exists (obj, ops). split; [done|].
    by apply list_elem_of_In.
  - apply in_map_iff. exists (method, sch). split; [done|].
    by apply list_elem_of_In.
Qed.

Lemma declared_nodup (obj method : string) (sch : schema) :
  schema_of obj method = Some sch → NoDup sch.*1.
Proof.
  intros H%schema_of_declared.
  assert (Hall : Forall (λ s : schema, NoDup s.*1) declared_schemas).
  { apply (bool_decide_unpack _). vm_compute. exact I. }
  by apply (proj1 (Forall_forall _ _) Hall).
Qed.

Lemma build_args_schema (obj method : string) (sch : schema)
    (kwargs : gmap string pyval) :
  schema_of obj method = Some sch →
  _build_args obj method kwargs = Returned (build_loop kwargs sch ∅).
Proof.
  unfold schema_of, _build_args.
  destruct (assoc obj CACHET_PARAMS_DEFINITION) as [ops|]; [|done].
  simpl. by intros ->.
Qed.

Lemma call_build_args_returned (obj method : string)
    (kwargs : gmap string pyval) (test : build_ret) :
  call_build_args obj method kwargs = Returned test →
  keyword_clash kwargs = false ∧ _build_args obj method kwargs = Returned test.
Proof. unfold call_build_args. by destruct (keyword_clash kwargs). Qed.

Lemma call_build_args_no_clash (obj method : string)
    (kwargs : gmap string pyval) :
  keyword_clash kwargs = false →
  call_build_args obj method kwargs = _build_args obj method kwargs.
Proof. unfold call_build_args. by intros ->. Qed.

(** ** The loop of the argument builder *)

(** What one field contributes to a successful build: the supplied value,
    else the default when the field is mandatory or the default is true. *)
Definition field_value (kwargs : gmap string pyval) (k : string)
    (config : field_spec) : option pyval :=
  match kwargs !! k with
  | Some v => Some v
  | None =>
      match default_ config with
      | Some d => if (mandatory config || truthy d)%bool then Some d else None
      | None => None
      end
  end.

(** A field that stops the build. *)
Definition is_missing (kwargs : gmap string pyval) (k : string)
    (config : field_spec) : Prop :=
  mandatory config = true ∧ default_ config = None ∧ kwargs !! k = None.

#[local] Ltac loop_step kwargs k c :=
  simpl; unfold field_value;
  destruct (mandatory c) eqn:?, (kwargs !! k) eqn:?, (default_ c) as [d|] eqn:?;
  simpl; try destruct (truthy d) eqn:?; simpl.

Lemma build_loop_lookup (kwargs : gmap string pyval) (items : schema) :
  ∀ acc args : gmap string pyval,
    NoDup items.*1 →
    build_loop kwargs items acc = BuildData args →
    ∀ k, args !! k =
         from_option Some (acc !! k) (assoc k items ≫= field_value kwargs k).
Proof.
  induction items as [|[k0 c0] rest IH]; intros acc args Hnd Hrun k.
  - simpl in *. by injection Hrun as ->.
  - apply NoDup_cons in Hnd as [Hfresh Hnd]. simpl in Hrun |- *.
    destruct (String.eqb_spec k k0) as [->|Hne].
    + pose proof (assoc_fresh k0 rest Hfresh) as Hnone.
      revert Hrun. loop_step kwargs k0 c0; intros Hrun; try done;
        rewrite (IH _ _ Hnd Hrun k0), Hnone; simpl;
        by rewrite ?lookup_insert_eq.
    + revert Hrun. loop_step kwargs k0 c0; intros Hrun; try done;
        rewrite (IH _ _ Hnd Hrun k);
        by rewrite ?lookup_insert_ne.
Qed.

Lemma build_loop_success (kwargs : gmap string pyval) (items : schema) :
  ∀ acc : gmap string pyval,
    (∀ k c, (k, c) ∈ items → ¬ is_missing kwargs k c) →
    ∃ args, build_loop kwargs items acc = BuildData args.
Proof.
  induction items as [|[k0 c0] rest IH]; intros acc Hok; [by eexists|].
  assert (Hrest : ∀ k c, (k, c) ∈ rest → ¬ is_missing kwargs k c).
  { intros k c Hin. apply Hok. by right. }
  pose proof (Hok k0 c0 ltac:(left)) as H0. unfold is_missing in H0.
  loop_step kwargs k0 c0; auto. by destruct H0.
Qed.

Lemma build_loop_first_missing (kwargs : gmap string pyval)
    (pre post : schema) (k : string) (c : field_spec) :
  ∀ acc : gmap string pyval,
    (∀ k' c', (k', c') ∈ pre → ¬ is_missing kwargs k' c') →
    is_missing kwargs k c →
    build_loop kwargs (pre ++ (k, c) :: post)%list acc = BuildMissing (missing_msg k).
Proof.
  induction pre as [|[k0 c0] pre IH]; intros acc Hpre (Hm & Hd & Hk).
  - simpl. by rewrite Hm, Hk, Hd.
  - assert (Hrest : ∀ k' c', (k', c') ∈ pre → ¬ is_missing kwargs k' c').
    { intros k' c' Hin. apply Hpre. by right. }
    pose proof (Hpre k0 c0 ltac:(left)) as H0. unfold is_missing in H0.
    loop_step kwargs k0 c0; try (apply IH; by auto). by destruct H0.
Qed.

Lemma build_loop_some_missing (kwargs : gmap string pyval) (items : schema) :
  ∀ acc : gmap string pyval,
    (∃ k c, (k, c) ∈ items ∧ is_missing kwargs k c) →
    ∃ k' c', (k', c') ∈ items ∧ is_missing kwargs k' c' ∧
             build_loop kwargs items acc = BuildMissing (missing_msg k').
Proof.
  induction items as [|[k0 c0] rest IH]; intros acc (k & c & Hin & Hmiss).
  - by apply elem_of_nil in Hin.
  - assert (Hhere : is_missing kwargs k0 c0 →
                    ∃ k' c', (k', c') ∈ (k0, c0) :: rest ∧
                      is_missing kwargs k' c' ∧
                      build_loop kwargs ((k0, c0) :: rest) acc
                      = BuildMissing (missing_msg k')).
    { intros Hm0. exists k0, c0. split; [left|]. split; [done|].
      apply (build_loop_first_missing kwargs [] rest k0 c0 acc); [|done].
      intros ? ? Hnil. by apply elem_of_nil in Hnil. }
    apply elem_of_cons in Hin as [[= -> ->]|Hin]; [by apply Hhere|].
    assert (Hlater : ∀ acc', ∃ k' c', (k', c') ∈ (k0, c0) :: rest ∧
                       is_missing kwargs k' c' ∧
                       build_loop kwargs rest acc' = BuildMissing (missing_msg k')).
    { intros acc'. destruct (IH acc') as (k' & c' & Hin' & Hm' & Hrun').
      - by exists k, c.
      - exists k', c'. split; [by right|done]. }
    revert Hhere. unfold is_missing at 1.
    loop_step kwargs k0 c0; intros Hhere; try apply Hlater. by apply Hhere.
Qed.

Lemma build_args_lookup (obj method : string) (sch : schema)
    (kwargs args : gmap string pyval) :
  schema_of obj method = Some sch →
  _build_args obj method kwargs = Returned (BuildData args) →
  ∀ k, args !! k = assoc k sch ≫= field_value kwargs k.
Proof.
  intros Hsch Hrun k. rewrite (build_args_schema _ _ _ _ Hsch) in Hrun.
  injection Hrun as Hrun.
  rewrite (build_loop_lookup _ _ _ _ (declared_nodup _ _ _ Hsch) Hrun k).
  rewrite lookup_empty. by destruct (assoc k sch ≫= field_value kwargs k).
Qed.

#[local] Ltac in_schema H :=
  repeat (apply elem_of_cons in H as [[= -> ->]|H]); [..|by apply elem_of_nil in H].

(** ** The argument builder on the declared schemas *)

(** C2.  For a declared (resource, operation) pair, when every mandatory
    field is supplied and no optional one is, [_build_args] succeeds; the
    keys of the argument set are the mandatory fields and the optional
    fields whose default is true; a mandatory field carries the supplied
    value, such an optional field its default, and an optional field with
    no default or a false default is not in the argument set. *)
Theorem build_args_mandatory_only (obj method : string) (sch : schema)
    (kwargs : gmap string pyval) :
  schema_of obj method = Some sch →
  (∀ k c, (k, c) ∈ sch → mandatory c = true → is_Some (kwargs !! k)) →
  (∀ k c, (k, c) ∈ sch → mandatory c = false → kwargs !! k = None) →
  ∃ args,
    _build_args obj method kwargs = Returned (BuildData args) ∧
    (∀ k, is_Some (args !! k) ↔
          ∃ c, (k, c) ∈ sch ∧
               (mandatory c = true ∨
                ∃ d, default_ c = Some d ∧ truthy d = true)) ∧
    (∀ k c, (k, c) ∈ sch → mandatory c = true → args !! k = kwargs !! k) ∧
    (∀ k c d, (k, c) ∈ sch → mandatory c = false →
              default_ c = Some d → truthy d = true → args !! k = Some d) ∧
    (∀ k c, (k, c) ∈ sch → mandatory c = false →
            (default_ c = None ∨ ∃ d, default_ c = Some d ∧ truthy d = false) →
            args !! k = None).
Proof.
  intros Hsch Hmand Hopt.
  pose proof (declared_nodup _ _ _ Hsch) as Hnd.
  destruct (build_loop_success kwargs sch ∅) as [args Hrun].
  { intros k c Hin (Hm & _ & Hk). destruct (Hmand k c Hin Hm) as [v Hv].
    congruence. }
  assert (Hargs : _build_args obj method kwargs = Returned (BuildData args)).
  { by rewrite (build_args_schema _ _ _ _ Hsch), Hrun. }
  pose proof (build_args_lookup _ _ _ _ _ Hsch Hargs) as Hlook.
  assert (Hat : ∀ k c, (k, c) ∈ sch → args !! k = field_value kwargs k c).
  { intros k c Hin. by rewrite Hlook, (assoc_nodup _ _ _ Hnd Hin). }
  exists args. split; [done|]. repeat split.
  - intros [v Hv]. rewrite Hlook in Hv.
    destruct (assoc k sch) as [c|] eqn:Hc; [|done]. simpl in Hv.
    apply assoc_elem_of in Hc. exists c. split; [done|].
    unfold field_value in Hv. destruct (mandatory c) eqn:Hm; [by left|right].
    rewrite (Hopt k c Hc Hm) in Hv.
    destruct (default_ c) as [d|]; [|done]. simpl in Hv.
    destruct (truthy d) eqn:Ht; [|done]. by exists d.
  - intros (c & Hin & Hcase). rewrite (Hat k c Hin). unfold field_value.
    destruct Hcase as [Hm|(d & Hd & Ht)].
    + by destruct (Hmand k c Hin Hm) as [v ->].
    + destruct (kwargs !! k); [done|]. rewrite Hd, Ht.
      rewrite orb_true_r. done.
  - intros k c Hin Hm. rewrite (Hat k c Hin). unfold field_value.
    by destruct (Hmand k c Hin Hm) as [v ->].
  - intros k c d Hin Hm Hd Ht. rewrite (Hat k c Hin). unfold field_value.
    by rewrite (Hopt k c Hin Hm), Hd, Hm, Ht.
  - intros k c Hin Hm Hcase. rewrite (Hat k c Hin). unfold field_value.
    rewrite (Hopt k c Hin Hm), Hm.
    destruct Hcase as [->|(d & -> & ->)]; done.
Qed.

(** [add_component(name="API", status=1)]: the builder keeps [name] and
    [status], adds [enabled] and leaves out [order], whose default is 0. *)
Definition api_kwargs (status : Z) : gmap string pyval :=
  {[ "name" := PStr "API"; "status" := PInt status ]}.

Lemma build_args_mandatory_only_witness :
  ∃ args,
    _build_args "components" "add" (api_kwargs 1) = Returned (BuildData args) ∧
    args !! "name" = Some (PStr "API") ∧
    args !! "enabled" = Some (PBool true) ∧
    args !! "order" = None.
Proof.
  destruct (build_args_mandatory_only "components" "add"
              [ ("name", fld true); ("status", fld true);
                ("description", fld_d false PNone); ("link", fld_d false PNone);
                ("order", fld_d false (PInt 0)); ("group_id", fld_d false PNone);
                ("enabled", fld_d false (PBool true)) ]
              (api_kwargs 1))
    as (args & Hrun & _ & Hmand & Hdef & Hnone).
  - reflexivity.
  - intros k c Hin Hm. in_schema Hin; try discriminate Hm; vm_compute; eauto.
  - intros k c Hin Hm. in_schema Hin; try discriminate Hm; reflexivity.
  - exists args. split; [exact Hrun|]. split; [|split].
    + rewrite (Hmand "name" (fld true)); [reflexivity| |reflexivity].
      apply elem_of_cons. left. reflexivity.
    + apply (Hdef "enabled" (fld_d false (PBool true)));
        [|reflexivity..].
      do 6 (apply elem_of_cons; right). apply elem_of_cons. left. reflexivity.
    + apply (Hnone "order" (fld_d false (PInt 0))); [|reflexivity|].
      * do 4 (apply elem_of_cons; right). apply elem_of_cons. left. reflexivity.
      * right. exists (PInt 0). split; reflexivity.
Defined.




(** ** The status checks *)

Lemma check_component_status_passes (data : pyval) :
  _check_component_status data = Returned tt ↔
  ∃ z, py_int data = Returned z ∧ (1 ≤ z ≤ 4)%Z.
Proof.
  unfold _check_component_status, mbind, outcome_bind.
  destruct (py_int data) as [z|e].
  - destruct ((z <? 1)%Z || (4 <? z)%Z)%bool eqn:Hb.
    + split; [done|]. intros (z' & [= <-] & Hz).
      apply orb_true_iff in Hb as [Hb%Z.ltb_lt|Hb%Z.ltb_lt]; lia.
    + split; [|done]. intros _. exists z. split; [done|].
      apply orb_false_iff in Hb as [Hlo%Z.ltb_ge Hhi%Z.ltb_ge]. lia.
  - split; [done|]. by intros (z & [=] & _).
Qed.

Lemma check_component_status_total (data : pyval) :
  _check_component_status data = Returned tt ∨
  raises (_check_component_status data).
Proof.
  destruct (_check_component_status data) as [[]|e]; [by left|right].
  by exists e.
Qed.

(** C4.  [_check_component_status] passes exactly when [int(data)]
    exists and lies in 1..4 and raises in every other case, also when the
    conversion itself fails; 1, 2, 3 and 4 pass, 0, 5 and -1 raise the
    range fault; [add_component(name="API", status=9)] builds its
    arguments, then raises that fault and has issued no request. *)
Theorem component_status_validation :
  (∀ data, _check_component_status data = Returned tt ↔
           ∃ z, py_int data = Returned z ∧ (1 ≤ z ≤ 4)%Z) ∧
  (∀ data, raises (_check_component_status data) ↔
           ¬ ∃ z, py_int data = Returned z ∧ (1 ≤ z ≤ 4)%Z) ∧
  (∀ data e, py_int data = Raised e ↔
             _check_component_status data = Raised e ∧
             ∀ msg, e ≠ Exception_ msg) ∧
  Forall (λ z, _check_component_status (PInt z) = Returned tt) [1; 2; 3; 4]%Z ∧
  Forall (λ z, _check_component_status (PInt z)
               = Raised (Exception_ ("Wrong component status " ++ string_of_Z z
                                     ++ ", must be between 1 and 4")))
         [0; 5; -1]%Z ∧
  _check_component_status (PStr "down") = Raised ValueError ∧
  _check_component_status PNone = Raised TypeError ∧
  (∃ args, _build_args "components" "add" (api_kwargs 9)
           = Returned (BuildData args) ∧ args !! "status" = Some (PInt 9)) ∧
  (∀ h api_url api_token,
     add_component h api_url api_token (api_kwargs 9)
     = IO [] (Raised (Exception_
                        "Wrong component status 9, must be between 1 and 4"))).
Proof.
  split; [exact check_component_status_passes|].
  split.
  { intros data. rewrite <- check_component_status_passes.
    destruct (check_component_status_total data) as [Hok|[e He]].
    - split; [intros [e He]; congruence|done].
    - split; [congruence|intros _; by exists e]. }
  split.
  { intros data e. unfold _check_component_status, mbind, outcome_bind.
    destruct (py_int data) as [z|e'] eqn:Hint.
    - split; [done|]. intros [H Hne].
      destruct ((z <? 1)%Z || (4 <? z)%Z)%bool; [|done].
      injection H as <-. exfalso. by eapply Hne.
    - split.
      + intros [= <-]. split; [done|]. intros msg ->.
        destruct data as [| | |s| |]; simpl in Hint; try done.
        by destruct (parse_int s).
      + by intros [[= ->] _]. }
  split; [by repeat constructor|].
  split; [by repeat constructor|].
  split; [reflexivity|]. split; [reflexivity|].
  split; [eexists; split; vm_compute; reflexivity|].
  intros h api_url api_token. reflexivity.
Qed.

(** ** The [io] layer *)

Lemma io_bind_returned {A B} (a : A) (f : A → io B) :
  lift (Returned a) ≫= f = f a.
Proof. unfold mbind, io_bind, lift. simpl. by destruct (f a). Qed.

Lemma io_bind_raised {A B} (e : exn) (f : A → io B) :
  lift (Raised e) ≫= f = IO [] (Raised e).
Proof. reflexivity. Qed.

(** ** Updates without a status *)

Lemma build_update_no_status (obj : string) (sch : schema)
    (kwargs : gmap string pyval) :
  schema_of obj "update" = Some sch →
  assoc "status" sch = Some (fld false) →
  Forall (λ kc, mandatory kc.2 = false) sch →
  kwargs !! "status" = None →
  ∃ args, _build_args obj "update" kwargs = Returned (BuildData args) ∧
          args !! "status" = None.
Proof.
  intros Hsch Hstatus Hopt Hk.
  destruct (build_loop_success kwargs sch ∅) as [args Hrun].
  { intros k c Hin (Hm & _). apply (proj1 (Forall_forall _ _) Hopt) in Hin.
    simpl in Hin. congruence. }
  assert (Hargs : _build_args obj "update" kwargs = Returned (BuildData args)).
  { by rewrite (build_args_schema _ _ _ _ Hsch), Hrun. }
  exists args. split; [done|].
  rewrite (build_args_lookup _ _ _ _ _ Hsch Hargs), Hstatus. simpl.
  unfold field_value. by rewrite Hk.
Qed.

(** C9, as the code has it.  When the keyword arguments carry no [status],
    [update_component] and [update_incident] raise with no request
    issued: the [KeyError] for ['status'], the argument set they have
    built having no [status] key, unless a keyword is named [obj] or
    [method], in which case the call of [_build_args] is the [TypeError]
    and no argument set is built. *)
Theorem update_without_status (h : host) (id api_url api_token : pyval)
    (kwargs : gmap string pyval) :
  kwargs !! "status" = None →
  update_component h id api_url api_token kwargs
  = IO [] (Raised (if keyword_clash kwargs then TypeError
                   else KeyError "status")) ∧
  update_incident h id api_url api_token kwargs
  = IO [] (Raised (if keyword_clash kwargs then TypeError
                   else KeyError "status")) ∧
  (∃ args, _build_args "components" "update" kwargs = Returned (BuildData args)
           ∧ args !! "status" = None) ∧
  (∃ args, _build_args "incidents" "update" kwargs = Returned (BuildData args)
           ∧ args !! "status" = None).
Proof.
  intros Hk.
  destruct (build_update_no_status "components" _ kwargs eq_refl eq_refl)
    as (cargs & Hc & Hcs); [by repeat constructor|done|].
  destruct (build_update_no_status "incidents" _ kwargs eq_refl eq_refl)
    as (iargs & Hi & His); [by repeat constructor|done|].
  split; [|split; [|split; [by exists cargs|by exists iargs]]].
  - unfold update_component, call_build_args.
    destruct (keyword_clash kwargs); [done|].
    rewrite Hc, io_bind_returned. simpl. unfold getitem. by rewrite Hcs.
  - unfold update_incident, call_build_args.
    destruct (keyword_clash kwargs); [done|].
    rewrite Hi, io_bind_returned. simpl. unfold getitem. by rewrite His.
Qed.

(** The call of the docstring, [cachet.update_component 1 name=toto]. *)
Lemma update_without_status_witness :
  update_component (example_host example_config ∅) (PInt 1) PNone PNone
    {[ "name" := PStr "toto" ]}
  = IO [] (Raised (KeyError "status")).
Proof.
  destruct (update_without_status (example_host example_config ∅) (PInt 1)
              PNone PNone {[ "name" := PStr "toto" ]}) as (H & _).
  - reflexivity.
  - exact H.
Defined.

(** C9 as stated fails for a keyword named like a parameter of
    [_build_args]: the call is a [TypeError], not the [KeyError]. *)
Lemma update_with_keyword_clash :
  update_component (example_host example_config ∅) (PInt 1) PNone PNone
    {[ "obj" := PStr "x" ]}
  = IO [] (Raised TypeError) ∧
  update_incident (example_host example_config ∅) (PInt 1) PNone PNone
    {[ "method" := PStr "x" ]}
  = IO [] (Raised TypeError) ∧
  ¬ ∃ key, result (update_component (example_host example_config ∅) (PInt 1)
                     PNone PNone {[ "obj" := PStr "x" ]})
           = Raised (KeyError key).
Proof.
  split; [reflexivity|]. split; [reflexivity|]. by intros [key H].
Qed.

(** ** Deleting a metric point *)

Definition is_number (v : pyval) : bool :=
  match v with PInt _ | PBool _ => true | _ => false end.



(** ** The request executor *)

Lemma status_is_spec (code : Z) (result : gmap string pyval) :
  status_is code result = true ↔ result !! "status" = Some (PInt code).
Proof.
  unfold status_is. destruct (result !! "status") as [[| |z| | |]|]; try done.
  rewrite Z.eqb_eq. split; [by intros ->|by intros [= ->]].
Qed.

(** C8.  With no [api_url] argument and nothing under either
    configuration key, [_query] returns the failure dict and has issued no
    request. *)
Theorem query_without_api_url (h : host) (function : string)
    (api_url api_token : pyval) (auth : bool) (args : pyval) (method : string)
    (header_dict : option (gmap string pyval)) (data : pyval) :
  truthy api_url = false →
  truthy (config_get h "cachet.api_url") = false →
  truthy (config_get h "cachet:api_url") = false →
  _query h function api_url api_token auth args method header_dict data
  = IO [] (Returned (RetDict (PStr "No Cachet api key found.") false)).
Proof.
  intros Harg Hdot Hcolon. unfold _query, py_or.
  by rewrite Harg, Hdot, Hcolon.
Qed.

Lemma query_without_api_url_witness :
  _query (example_host ∅ {[ "status" := PInt 200 ]})
    "components" PNone PNone false PNone "GET" None PNone
  = IO [] (Returned (RetDict (PStr "No Cachet api key found.") false)).
Proof.
  apply query_without_api_url; reflexivity.
Defined.

(** Whenever [_query] has issued a request, it is the only one and the
    answer to it decides the result. *)
Lemma query_send_sent (h : host) (function : string)
    (api_url api_token : pyval) (auth : bool) (args : pyval) (method : string)
    (header_dict : option (gmap string pyval)) (data : pyval) (req : request) :
  sent (query_send h function api_url api_token auth args method header_dict data)
  = [req] →
  result (query_send h function api_url api_token auth args method header_dict data)
  = query_result (http_query h req).
Proof.
  unfold query_send.
  destruct (urljoin h api_url (PStr "/api/v1/") true) as [base_url|e];
    [|discriminate].
  rewrite io_bind_returned.
  destruct (urljoin h base_url (PStr function) false) as [url|e];
    [|discriminate].
  rewrite io_bind_returned. simpl. by intros [= <-].
Qed.

Lemma query_sent (h : host) (function : string)
    (api_url api_token : pyval) (auth : bool) (args : pyval) (method : string)
    (header_dict : option (gmap string pyval)) (data : pyval) (req : request) :
  sent (_query h function api_url api_token auth args method header_dict data)
  = [req] →
  result (_query h function api_url api_token auth args method header_dict data)
  = query_result (http_query h req).
Proof.
  unfold _query, query_auth.
  repeat (match goal with
          | |- context [if ?b then _ else _] => destruct b
          end);
    try discriminate; apply query_send_sent.
Qed.

(** A call of [_query] issues one request at most. *)
Lemma query_at_most_one (h : host) (function : string)
    (api_url api_token : pyval) (auth : bool) (args : pyval) (method : string)
    (header_dict : option (gmap string pyval)) (data : pyval) :
  (length (sent (_query h function api_url api_token auth args method
                   header_dict data)) ≤ 1)%nat.
Proof.
  assert (Hsend : ∀ u t,
    (length (sent (query_send h function u t auth args method
                     header_dict data)) ≤ 1)%nat).
  { intros u t. unfold query_send.
    destruct (urljoin h u (PStr "/api/v1/") true) as [base_url|e];
      [rewrite io_bind_returned|simpl; lia].
    destruct (urljoin h base_url (PStr function) false) as [url|e];
      [rewrite io_bind_returned|simpl; lia].
    simpl. lia. }
  unfold _query, query_auth.
  repeat (match goal with
          | |- context [if ?b then _ else _] => destruct b
          end);
    try apply Hsend; simpl; lia.
Qed.

(** C7.  When the answer to the request has status 204, [_query] returns
    the bare [True]: no dict, no message, nothing of the answer. *)
Theorem query_no_content (h : host) (function : string)
    (api_url api_token : pyval) (auth : bool) (args : pyval) (method : string)
    (header_dict : option (gmap string pyval)) (data : pyval) (req : request) :
  sent (_query h function api_url api_token auth args method header_dict data)
  = [req] →
  http_query h req !! "status" = Some (PInt 204) →
  result (_query h function api_url api_token auth args method header_dict data)
  = Returned RetTrue.
Proof.
  intros Hsent Hstatus. rewrite (query_sent _ _ _ _ _ _ _ _ _ _ Hsent).
  unfold query_result.
  assert (status_is OK (http_query h req) = false) as ->.
  { unfold status_is. by rewrite Hstatus. }
  by rewrite (proj2 (status_is_spec NO_CONTENT _) Hstatus).
Qed.

Definition get_components_request : request :=
  {| req_url := PStr "https://status.example.com/api/v1/components";
     req_method := "GET"; req_params := ∅; req_data := PNone;
     req_header_dict := ∅ |}.

Lemma query_no_content_witness :
  result (get_components
            (example_host example_config
               {[ "status" := PInt 204; "dict" := PDict {[ "data" := PInt 7 ]} ]})
            PNone PNone PNone)
  = Returned RetTrue.
Proof.
  apply (query_no_content _ _ _ _ _ _ _ _ _ get_components_request);
    reflexivity.
Defined.

(** C6, as the code has it.  When the answer to the request has status 200
    and its decoded body is a dict: with an [error] entry the result is
    the failure carrying that entry; without one the result is a success
    whose message is the [data] entry, and [None] when the body has no
    [data] entry. *)
Theorem query_ok (h : host) (function : string)
    (api_url api_token : pyval) (auth : bool) (args : pyval) (method : string)
    (header_dict : option (gmap string pyval)) (data : pyval) (req : request)
    (body : gmap string pyval) :
  sent (_query h function api_url api_token auth args method header_dict data)
  = [req] →
  http_query h req !! "status" = Some (PInt 200) →
  http_query h req !! "dict" = Some (PDict body) →
  result (_query h function api_url api_token auth args method header_dict data)
  = Returned (match body !! "error" with
              | Some message => RetDict message false
              | None => RetDict (default PNone (body !! "data")) true
              end).
Proof.
  intros Hsent Hstatus Hdict. rewrite (query_sent _ _ _ _ _ _ _ _ _ _ Hsent).
  unfold query_result.
  rewrite (proj2 (status_is_spec OK _) Hstatus).
  unfold getitem at 1. rewrite Hdict. simpl.
  unfold mbind, outcome_bind, getitem.
  by destruct (body !! "error") as [e|] eqn:He.
Qed.

(** [get_components()] against [{"data": [{"id": 1, "name": "API"}]}]. *)
Definition components_body : gmap string pyval :=
  {[ "data" := PList [PDict {[ "id" := PInt 1; "name" := PStr "API" ]}] ]}.

Lemma query_ok_witness :
  result (get_components
            (example_host example_config
               {[ "status" := PInt 200; "dict" := PDict components_body ]})
            PNone PNone PNone)
  = Returned (RetDict (PList [PDict {[ "id" := PInt 1; "name" := PStr "API" ]}])
                      true).
Proof.
  apply (query_ok _ _ _ _ _ _ _ _ _ get_components_request components_body);
    reflexivity.
Defined.

(** C6 as stated fails on a body with neither [error] nor [data]: the
    message is [None], not the decoded body. *)
Lemma query_ok_body_without_data :
  get_components
    (example_host example_config
       {[ "status" := PInt 200; "dict" := PDict {[ "id" := PInt 7 ]} ]})
    PNone PNone PNone
  = IO [get_components_request] (Returned (RetDict PNone true)) ∧
  result (get_components
            (example_host example_config
               {[ "status" := PInt 200; "dict" := PDict {[ "id" := PInt 7 ]} ]})
            PNone PNone PNone)
  ≠ Returned (RetDict (PDict {[ "id" := PInt 7 ]}) true).
Proof.
  split; [reflexivity|]. vm_compute. discriminate.
Qed.

(** C5, as the code has it.  When the answer to the request has a status
    other than 200 and 204 and the answer itself (the dict of the
    transport, not the decoded body) has an [error] entry, [_query]
    returns the failure carrying that entry. *)
Theorem query_other_status (h : host) (function : string)
    (api_url api_token : pyval) (auth : bool) (args : pyval) (method : string)
    (header_dict : option (gmap string pyval)) (data : pyval) (req : request)
    (message : pyval) :
  sent (_query h function api_url api_token auth args method header_dict data)
  = [req] →
  http_query h req !! "status" ≠ Some (PInt 200) →
  http_query h req !! "status" ≠ Some (PInt 204) →
  http_query h req !! "error" = Some message →
  result (_query h function api_url api_token auth args method header_dict data)
  = Returned (RetDict message false).
Proof.
  intros Hsent Hok Hnc Herr. rewrite (query_sent _ _ _ _ _ _ _ _ _ _ Hsent).
  unfold query_result.
  destruct (status_is OK _) eqn:H1; [by apply status_is_spec in H1|].
  destruct (status_is NO_CONTENT _) eqn:H2; [by apply status_is_spec in H2|].
  by rewrite Herr.
Qed.

Lemma query_other_status_witness :
  result (get_components
            (example_host example_config
               {[ "status" := PInt 500; "error" := PStr "boom" ]})
            PNone PNone PNone)
  = Returned (RetDict (PStr "boom") false).
Proof.
  apply (query_other_status _ _ _ _ _ _ _ _ _ get_components_request);
    [reflexivity|discriminate|discriminate|reflexivity].
Defined.

(** C5 as stated fails: a 500 answer whose decoded body is
    [{"error": "boom"}], and one with no [error] anywhere, both end in the
    read of the unassigned local [_result]; nothing is returned. *)
Lemma query_other_status_unbound_local :
  get_components
    (example_host example_config
       {[ "status" := PInt 500;
          "dict" := PDict {[ "error" := PStr "boom" ]} ]})
    PNone PNone PNone
  = IO [get_components_request] (Raised (UnboundLocalError "_result")) ∧
  get_components
    (example_host example_config {[ "status" := PInt 500 ]})
    PNone PNone PNone
  = IO [get_components_request] (Raised (UnboundLocalError "_result")).
Proof.
  split; reflexivity.
Qed.

(** ** Adding a component *)

Lemma build_api_kwargs (status : Z) :
  _build_args "components" "add" (api_kwargs status)
  = Returned (BuildData {[ "name" := PStr "API"; "status" := PInt status;
                           "enabled" := PBool true ]}).
Proof. vm_compute. reflexivity. Qed.

(** C1, as the code has it.  With base URL and token taken from the
    configuration, [add_component(name="API", status=1)] issues one
    request: a POST to the join of the base URL, [/api/v1/] and
    [components], with the arguments [name], [status] and [enabled] (no
    [order]: its default 0 is false) and the token in the header
    [X-Cachet-Token]. *)
Theorem add_component_request (h : host) (api_url api_token base_url url : pyval) :
  py_or (config_get h "cachet.api_url") (config_get h "cachet:api_url") = api_url →
  truthy api_url = true →
  py_or (config_get h "cachet.api_token") (config_get h "cachet:api_token")
  = api_token →
  truthy api_token = true →
  urljoin h api_url (PStr "/api/v1/") true = Returned base_url →
  urljoin h base_url (PStr "components") false = Returned url →
  sent (add_component h PNone PNone (api_kwargs 1))
  = [ {| req_url := url;
         req_method := "POST";
         req_params := {[ "name" := PStr "API"; "status" := PInt 1;
                          "enabled" := PBool true ]};
         req_data := PNone;
         req_header_dict := {[ "X-Cachet-Token" := api_token ]} |} ].
Proof.
  intros Hurl Hurl_true Htoken Htoken_true Hbase Hjoin.
  unfold add_component.
  rewrite (call_build_args_no_clash "components" "add" (api_kwargs 1) eq_refl),
    build_api_kwargs, io_bind_returned.
  unfold with_args. change (getitem _ "status") with (Returned (PInt 1)).
  rewrite io_bind_returned.
  change (_check_component_status (PInt 1)) with (Returned tt).
  rewrite io_bind_returned.
  unfold _query, query_auth. simpl truthy. cbv iota.
  rewrite Hurl, Hurl_true, Htoken, Htoken_true.
  unfold query_send. rewrite Hbase, io_bind_returned, Hjoin, io_bind_returned.
  reflexivity.
Qed.

Lemma add_component_request_witness :
  sent (add_component (example_host example_config ∅) PNone PNone (api_kwargs 1))
  = [ {| req_url := PStr "https://status.example.com/api/v1/components";
         req_method := "POST";
         req_params := {[ "name" := PStr "API"; "status" := PInt 1;
                          "enabled" := PBool true ]};
         req_data := PNone;
         req_header_dict := {[ "X-Cachet-Token" := PStr "peWcBiMOS9HrZG15" ]} |} ].
Proof.
  apply (add_component_request (example_host example_config ∅)
           (PStr "https://status.example.com") (PStr "peWcBiMOS9HrZG15")
           (PStr "https://status.example.com/api/v1/"));
    reflexivity.
Defined.

(** C1 as stated fails: the request carries no [order], so its arguments
    are not [{name: "API", status: 1, order: 0, enabled: true}]. *)
Lemma add_component_request_has_no_order :
  ∃ req,
    sent (add_component (example_host example_config ∅) PNone PNone
            (api_kwargs 1)) = [req] ∧
    req_method req = "POST" ∧
    req_params req !! "order" = None ∧
    req_params req ≠ {[ "name" := PStr "API"; "status" := PInt 1;
                        "order" := PInt 0; "enabled" := PBool true ]}.
Proof.
  eexists. split; [reflexivity|]. split; [reflexivity|].
  split; [reflexivity|]. intros H.
  apply (f_equal (λ m : gmap string pyval, m !! "order")) in H.
  vm_compute in H. discriminate H.
Qed.

(** * Further properties of the module *)

(** ** Incident status *)

(** X1.  [_check_incident_status] passes exactly when [int(data)] exists
    and lies in 0..4 and raises otherwise; whatever passes the component
    check passes the incident check, and 0 is the one integer on which
    the two differ. *)
Theorem incident_status_validation :
  (∀ data, _check_incident_status data = Returned tt ↔
           ∃ z, py_int data = Returned z ∧ (0 ≤ z ≤ 4)%Z) ∧
  (∀ data, raises (_check_incident_status data) ↔
           ¬ ∃ z, py_int data = Returned z ∧ (0 ≤ z ≤ 4)%Z) ∧
  (∀ data, _check_component_status data = Returned tt →
           _check_incident_status data = Returned tt) ∧
  (∀ z, _check_incident_status (PInt z) = Returned tt ∧
        raises (_check_component_status (PInt z)) ↔ z = 0%Z).
Proof.
  assert (Hpass : ∀ data, _check_incident_status data = Returned tt ↔
                          ∃ z, py_int data = Returned z ∧ (0 ≤ z ≤ 4)%Z).
  { intros data. unfold _check_incident_status, mbind, outcome_bind.
    destruct (py_int data) as [z|e].
    - destruct ((z <? 0)%Z || (4 <? z)%Z)%bool eqn:Hb.
      + split; [done|]. intros (z' & [= <-] & Hz).
        apply orb_true_iff in Hb as [Hb%Z.ltb_lt|Hb%Z.ltb_lt]; lia.
      + split; [|done]. intros _. exists z. split; [done|].
        apply orb_false_iff in Hb as [Hlo%Z.ltb_ge Hhi%Z.ltb_ge]. lia.
    - split; [done|]. by intros (z & [=] & _). }
  split; [exact Hpass|]. split; [|split].
  - intros data. rewrite <- Hpass.
    destruct (_check_incident_status data) as [[]|e].
    + split; [intros [e He]; congruence|done].
    + split; [congruence|intros _; by exists e].
  - intros data (z & Hz & Hrange)%check_component_status_passes.
    apply Hpass. exists z. split; [done|lia].
  - intros z. split.
    + intros [(z' & [= <-] & Hz)%Hpass [e He]].
      destruct (Z.eq_dec z 0) as [|Hne]; [done|].
      assert (Hc : _check_component_status (PInt z) = Returned tt).
      { apply check_component_status_passes. exists z. split; [done|lia]. }
      congruence.
    + intros ->. split; [reflexivity|]. by eexists.
Qed.

(** ** The argument builder, continued *)

(** X2.  [_build_args] raises exactly when the (resource, operation) pair
    has no schema, whatever the keyword arguments; what it raises is a
    plain [Exception], and for a declared pair it always returns a dict. *)
Theorem build_args_raises_iff_undeclared (obj method : string)
    (kwargs : gmap string pyval) :
  (schema_of obj method = None ↔
   ∃ msg, _build_args obj method kwargs = Raised (Exception_ msg)) ∧
  (schema_of obj method = None ↔ raises (_build_args obj method kwargs)) ∧
  (is_Some (schema_of obj method) ↔
   ∃ test, _build_args obj method kwargs = Returned test).
Proof.
  unfold _build_args, schema_of, raises.
  destruct (assoc obj CACHET_PARAMS_DEFINITION) as [ops|]; simpl.
  - destruct (assoc method ops) as [sch|].
    + repeat split; try done; try (by intros [? ?]); by eexists.
    + repeat split; try done; try (by intros [? ?]); by eexists.
  - repeat split; try done; try (by intros [? ?]); by eexists.
Qed.

Lemma build_loop_agree (kwargs kwargs' : gmap string pyval) (items : schema) :
  ∀ acc : gmap string pyval,
    (∀ k c, (k, c) ∈ items → kwargs !! k = kwargs' !! k) →
    build_loop kwargs items acc = build_loop kwargs' items acc.
Proof.
  induction items as [|[k0 c0] rest IH]; intros acc Hagree; [done|].
  assert (Hrest : ∀ k c, (k, c) ∈ rest → kwargs !! k = kwargs' !! k).
  { intros k c Hin. apply (Hagree k c). by right. }
  simpl. rewrite <- (Hagree k0 c0 ltac:(left)).
  destruct (mandatory c0), (kwargs !! k0), (default_ c0) as [d|];
    try destruct (truthy d); auto.
Qed.

(** X3.  The argument set is an allow-list: in a successful build every
    entry belongs to a field of the schema and carries either the supplied
    value or, when nothing was supplied, the declared default; a supplied
    key that is no field of the schema is dropped. *)
Theorem build_args_allow_list (obj method : string) (sch : schema)
    (kwargs args : gmap string pyval) (k : string) (v : pyval) :
  schema_of obj method = Some sch →
  _build_args obj method kwargs = Returned (BuildData args) →
  args !! k = Some v →
  ∃ c, (k, c) ∈ sch ∧
       (kwargs !! k = Some v ∨
        (kwargs !! k = None ∧ default_ c = Some v ∧
         (mandatory c = true ∨ truthy v = true))).
Proof.
  intros Hsch Hrun Hv. rewrite (build_args_lookup _ _ _ _ _ Hsch Hrun) in Hv.
  destruct (assoc k sch) as [c|] eqn:Hc; [|done]. simpl in Hv.
  exists c. split; [by apply assoc_elem_of|].
  unfold field_value in Hv. destruct (kwargs !! k) as [w|]; [by left|right].
  destruct (default_ c) as [d|]; [|done].
  destruct (mandatory c); simpl in Hv.
  - injection Hv as ->. auto.
  - destruct (truthy d) eqn:Ht; [|done]. injection Hv as ->. auto.
Qed.

(** A component group built from [name] and a stray [colour]. *)
Definition group_kwargs : gmap string pyval :=
  {[ "name" := PStr "core"; "colour" := PStr "red" ]}.

Lemma build_args_allow_list_witness :
  ∃ c, ("name", c) ∈ [ ("name", fld true); ("order", fld_d false (PInt 0)) ] ∧
       (group_kwargs !! "name" = Some (PStr "core") ∨
        (group_kwargs !! "name" = None ∧ default_ c = Some (PStr "core") ∧
         (mandatory c = true ∨ truthy (PStr "core") = true))).
Proof.
  apply (build_args_allow_list "components.groups" "add" _ group_kwargs
           {[ "name" := PStr "core" ]} "name" (PStr "core"));
    reflexivity.
Defined.

(** X4.  A supplied value is copied as it is and wins over the default,
    for mandatory and optional fields alike. *)
Theorem build_args_supplied_verbatim (obj method : string) (sch : schema)
    (kwargs args : gmap string pyval) (k : string) (c : field_spec)
    (v : pyval) :
  schema_of obj method = Some sch →
  _build_args obj method kwargs = Returned (BuildData args) →
  (k, c) ∈ sch →
  kwargs !! k = Some v →
  args !! k = Some v.
Proof.
  intros Hsch Hrun Hin Hk. rewrite (build_args_lookup _ _ _ _ _ Hsch Hrun).
  rewrite (assoc_nodup _ _ _ (declared_nodup _ _ _ Hsch) Hin). simpl.
  unfold field_value. by rewrite Hk.
Qed.

Lemma build_args_supplied_verbatim_witness :
  ({[ "name" := PStr "core"; "order" := PStr "3" ]} : gmap string pyval)
    !! "order" = Some (PStr "3").
Proof.
  apply (build_args_supplied_verbatim "components.groups" "add"
           [ ("name", fld true); ("order", fld_d false (PInt 0)) ]
           {[ "name" := PStr "core"; "order" := PStr "3"; "colour" := PNone ]}
           _ "order" (fld_d false (PInt 0)));
    [reflexivity|reflexivity| |reflexivity].
  apply elem_of_cons. right. apply elem_of_cons. left. reflexivity.
Defined.

(** X5.  For a declared pair the build succeeds exactly when no field is
    mandatory, without default and not supplied; otherwise it is the
    failure dict.  Values are never inspected: any value, also [None],
    counts as supplied. *)
Theorem build_args_succeeds_iff (obj method : string) (sch : schema)
    (kwargs : gmap string pyval) :
  schema_of obj method = Some sch →
  ((∃ args, _build_args obj method kwargs = Returned (BuildData args)) ↔
   ∀ k c, (k, c) ∈ sch → ¬ is_missing kwargs k c) ∧
  ((∃ msg, _build_args obj method kwargs = Returned (BuildMissing msg)) ↔
   ∃ k c, (k, c) ∈ sch ∧ is_missing kwargs k c).
Proof.
  intros Hsch. rewrite (build_args_schema _ _ _ _ Hsch).
  assert (Hfail : (∃ k c, (k, c) ∈ sch ∧ is_missing kwargs k c) →
                  ∃ msg, build_loop kwargs sch ∅ = BuildMissing msg).
  { intros H. destruct (build_loop_some_missing kwargs sch ∅ H)
      as (k' & c' & _ & _ & ->). by eexists. }
  split; split.
  - intros [args Hrun] k c Hin Hmiss.
    destruct Hfail as [msg Hmsg]; [by exists k, c|]. congruence.
  - intros Hok. destruct (build_loop_success kwargs sch ∅ Hok) as [args ->].
    by eexists.
  - intros [msg Hmsg].
    destruct (decide (Exists (λ kc, mandatory kc.2 = true ∧
                                    default_ kc.2 = None ∧
                                    kwargs !! kc.1 = None) sch))
      as [Hex|Hnone].
    + apply Exists_exists in Hex as ([k c] & Hin & Hmiss). by exists k, c.
    + destruct (build_loop_success kwargs sch ∅) as [args Hrun]; [|congruence].
      intros k c Hin Hmiss. apply Hnone, Exists_exists. by exists (k, c).
  - intros H. destruct (Hfail H) as [msg ->]. by eexists.
Qed.

Lemma build_args_succeeds_iff_witness :
  ∃ args, _build_args "metrics" "add"
            {[ "name" := PNone; "suffix" := PNone; "description" := PNone ]}
          = Returned (BuildData args).
Proof.
  apply (proj1 (build_args_succeeds_iff "metrics" "add"
                  [ ("name", fld true); ("suffix", fld true);
                    ("description", fld true);
                    ("default_value", fld_d true (PInt 0));
                    ("display_chart", fld_d false (PInt 1)) ]
                  {[ "name" := PNone; "suffix" := PNone;
                     "description" := PNone ]} eq_refl)).
  intros k c Hin (Hm & Hd & Hk). in_schema Hin; discriminate.
Defined.

(** X6.  Only the keys of the schema count: two sets of keyword arguments
    that agree on the fields of the schema give the same result, so
    further keys change nothing. *)
Theorem build_args_ignores_extra_keys (obj method : string) (sch : schema)
    (kwargs kwargs' : gmap string pyval) :
  schema_of obj method = Some sch →
  (∀ k c, (k, c) ∈ sch → kwargs !! k = kwargs' !! k) →
  _build_args obj method kwargs = _build_args obj method kwargs'.
Proof.
  intros Hsch Hagree. rewrite !(build_args_schema _ _ _ _ Hsch).
  f_equal. by apply build_loop_agree.
Qed.

Lemma build_args_ignores_extra_keys_witness :
  _build_args "metrics.points" "add"
    {[ "value" := PInt 12; "timestamp" := PInt 1446000000 ]}
  = _build_args "metrics.points" "add" {[ "value" := PInt 12 ]}.
Proof.
  apply (build_args_ignores_extra_keys "metrics.points" "add"
           [ ("value", fld true) ]); [reflexivity|].
  intros k c Hin. in_schema Hin. reflexivity.
Defined.

(** ** The request executor, continued *)

(** The base URL and the token [_query] goes on with: the argument when it
    is true, else the configuration under its two spellings. *)
Definition resolve_url (h : host) (api_url : pyval) : pyval :=
  if truthy api_url then api_url
  else py_or (config_get h "cachet.api_url") (config_get h "cachet:api_url").

Definition resolve_token (h : host) (api_token : pyval) : pyval :=
  if truthy api_token then api_token
  else py_or (config_get h "cachet.api_token") (config_get h "cachet:api_token").

Lemma query_unfold (h : host) (function : string)
    (api_url api_token : pyval) (auth : bool) (args : pyval) (method : string)
    (header_dict : option (gmap string pyval)) (data : pyval) :
  _query h function api_url api_token auth args method header_dict data
  = if (truthy (resolve_url h api_url)
        && (negb auth || truthy (resolve_token h api_token)))%bool
    then query_send h function (resolve_url h api_url)
           (if auth then resolve_token h api_token else api_token)
           auth args method header_dict data
    else mret no_key.
Proof.
  unfold _query, query_auth, resolve_url, resolve_token.
  destruct (truthy api_url) eqn:Hu, auth, (truthy api_token) eqn:Ht;
    rewrite ?Hu, ?Ht; simpl;
    repeat (match goal with
            | |- context [if truthy ?v then _ else _] =>
                let H := fresh in destruct (truthy v) eqn:H; rewrite ?H
            end);
    reflexivity.
Qed.

(** The headers of the request: the token is added for an authenticated
    call unless the caller's headers already have one. *)
Definition request_headers (auth : bool) (api_token : pyval)
    (header_dict : option (gmap string pyval)) : gmap string pyval :=
  if auth then
    match default ∅ header_dict !! "X-Cachet-Token" with
    | None => <["X-Cachet-Token" := api_token]> (default ∅ header_dict)
    | Some _ => default ∅ header_dict
    end
  else default ∅ header_dict.

Lemma query_send_request (h : host) (function : string)
    (api_url api_token : pyval) (auth : bool) (args : pyval) (method : string)
    (header_dict : option (gmap string pyval)) (data : pyval) (req : request) :
  sent (query_send h function api_url api_token auth args method header_dict data)
  = [req] →
  ∃ base_url,
    urljoin h api_url (PStr "/api/v1/") true = Returned base_url ∧
    urljoin h base_url (PStr function) false = Returned (req_url req) ∧
    req_method req = method ∧
    req_params req = match args with PDict d => d | _ => ∅ end ∧
    req_data req = data ∧
    req_header_dict req = request_headers auth api_token header_dict.
Proof.
  unfold query_send.
  destruct (urljoin h api_url (PStr "/api/v1/") true) as [base_url|e] eqn:Hb;
    [|discriminate].
  rewrite io_bind_returned.
  destruct (urljoin h base_url (PStr function) false) as [url|e] eqn:Hj;
    [|discriminate].
  rewrite io_bind_returned. simpl. intros [= <-]. by exists base_url.
Qed.

Lemma query_request (h : host) (function : string)
    (api_url api_token : pyval) (auth : bool) (args : pyval) (method : string)
    (header_dict : option (gmap string pyval)) (data : pyval) (req : request) :
  sent (_query h function api_url api_token auth args method header_dict data)
  = [req] →
  truthy (resolve_url h api_url) = true ∧
  (auth = true → truthy (resolve_token h api_token) = true) ∧
  sent (query_send h function (resolve_url h api_url)
          (if auth then resolve_token h api_token else api_token)
          auth args method header_dict data) = [req].
Proof.
  rewrite query_unfold.
  destruct (truthy (resolve_url h api_url)); [|discriminate].
  destruct auth; simpl; [|done].
  destruct (truthy (resolve_token h api_token)); [done|discriminate].
Qed.

(** X7.  An authenticated call with no token argument and nothing under
    either token key of the configuration returns the failure dict and
    issues no request, whether or not a base URL is available. *)
Theorem query_without_token (h : host) (function : string)
    (api_url api_token : pyval) (args : pyval) (method : string)
    (header_dict : option (gmap string pyval)) (data : pyval) :
  truthy api_token = false →
  truthy (config_get h "cachet.api_token") = false →
  truthy (config_get h "cachet:api_token") = false →
  _query h function api_url api_token true args method header_dict data
  = IO [] (Returned (RetDict (PStr "No Cachet api key found.") false)).
Proof.
  intros Harg Hdot Hcolon. rewrite query_unfold.
  unfold resolve_token, py_or. rewrite Harg, Hdot, Hcolon. simpl.
  by rewrite andb_false_r.
Qed.

Lemma query_without_token_witness :
  _query (example_host {[ "cachet.api_url" := PStr "https://status.example.com" ]} ∅)
    "components/3" PNone PNone true PNone "DELETE" None PNone
  = IO [] (Returned (RetDict (PStr "No Cachet api key found.") false)).
Proof.
  apply query_without_token; reflexivity.
Defined.

(** X8.  The one request [_query] issues has the method and the data of
    the call, the arguments as parameters when they are a dict and no
    parameters otherwise, and as URL the join of the resolved base URL
    with [/api/v1/] and then with the path; the base URL is the argument
    when it is true, else the configuration. *)
Theorem query_request_fields (h : host) (function : string)
    (api_url api_token : pyval) (auth : bool) (args : pyval) (method : string)
    (header_dict : option (gmap string pyval)) (data : pyval) (req : request) :
  sent (_query h function api_url api_token auth args method header_dict data)
  = [req] →
  req_method req = method ∧
  req_data req = data ∧
  req_params req = match args with PDict d => d | _ => ∅ end ∧
  truthy (resolve_url h api_url) = true ∧
  ∃ base_url,
    urljoin h (resolve_url h api_url) (PStr "/api/v1/") true
    = Returned base_url ∧
    urljoin h base_url (PStr function) false = Returned (req_url req).
Proof.
  intros (Hurl & _ & Hsend)%query_request.
  apply query_send_request in Hsend
    as (base_url & Hbase & Hjoin & Hm & Hp & Hd & _).
  repeat split; try done. by exists base_url.
Qed.

Lemma query_request_fields_witness :
  req_method get_components_request = "GET" ∧
  req_data get_components_request = PNone ∧
  req_params get_components_request = ∅ ∧
  truthy (resolve_url (example_host example_config ∅) PNone) = true ∧
  ∃ base_url,
    urljoin (example_host example_config ∅)
      (resolve_url (example_host example_config ∅) PNone)
      (PStr "/api/v1/") true = Returned base_url ∧
    urljoin (example_host example_config ∅) base_url (PStr "components") false
    = Returned (req_url get_components_request).
Proof.
  apply (query_request_fields (example_host example_config ∅) "components"
           PNone PNone false PNone "GET" None PNone get_components_request).
  reflexivity.
Defined.

(** X9.  The headers of the request.  Without [auth] they are the caller's
    headers and no token is added.  With [auth] the header
    [X-Cachet-Token] is present: the caller's own when the caller's
    headers have one, else the resolved token, which is true; every other
    header is the caller's. *)
Theorem query_request_token (h : host) (function : string)
    (api_url api_token : pyval) (auth : bool) (args : pyval) (method : string)
    (header_dict : option (gmap string pyval)) (data : pyval) (req : request) :
  sent (_query h function api_url api_token auth args method header_dict data)
  = [req] →
  (auth = false → req_header_dict req = default ∅ header_dict) ∧
  (auth = true →
   req_header_dict req !! "X-Cachet-Token"
   = Some (default (resolve_token h api_token)
                   (default ∅ header_dict !! "X-Cachet-Token")) ∧
   truthy (resolve_token h api_token) = true) ∧
  (∀ k, k ≠ "X-Cachet-Token" →
        req_header_dict req !! k = default ∅ header_dict !! k).
Proof.
  intros (_ & Htok & Hsend)%query_request.
  apply query_send_request in Hsend as (_ & _ & _ & _ & _ & _ & ->).
  unfold request_headers. destruct auth; simpl.
  - split; [done|]. split.
    + intros _. split; [|by apply Htok].
      destruct (default ∅ header_dict !! "X-Cachet-Token") as [v|] eqn:Hv;
        simpl; [done|]. by rewrite lookup_insert_eq.
    + intros k Hk.
      destruct (default ∅ header_dict !! "X-Cachet-Token"); [done|].
      by rewrite lookup_insert_ne.
  - split; [done|]. split; [done|]. done.
Qed.

Definition delete_component_request : request :=
  {| req_url := PStr "https://status.example.com/api/v1/components/3";
     req_method := "DELETE"; req_params := ∅; req_data := PNone;
     req_header_dict := {[ "X-Cachet-Token" := PStr "peWcBiMOS9HrZG15" ]} |}.

Lemma query_request_token_witness :
  req_header_dict delete_component_request !! "X-Cachet-Token"
  = Some (PStr "peWcBiMOS9HrZG15").
Proof.
  apply (proj1 (proj2 (query_request_token (example_host example_config ∅)
                         "components/3" PNone PNone true PNone "DELETE" None
                         PNone delete_component_request eq_refl)) eq_refl).
Defined.

Lemma query_send_ext (h h' : host) (function : string)
    (api_url api_token : pyval) (auth : bool) (args : pyval) (method : string)
    (header_dict : option (gmap string pyval)) (data : pyval) :
  (∀ r, http_query h r = http_query h' r) →
  (∀ b u f, urljoin h b u f = urljoin h' b u f) →
  query_send h function api_url api_token auth args method header_dict data
  = query_send h' function api_url api_token auth args method header_dict data.
Proof.
  intros Hq Hj. unfold query_send. rewrite <- Hj.
  destruct (urljoin h api_url (PStr "/api/v1/") true) as [base_url|e];
    [|done].
  rewrite !io_bind_returned, <- Hj.
  destruct (urljoin h base_url (PStr function) false) as [url|e]; [|done].
  rewrite !io_bind_returned. unfold send. by rewrite Hq.
Qed.

(** X10.  Arguments override the configuration: with a true [api_url]
    and, for an authenticated call, a true [api_token], the configuration
    is not consulted, so two hosts with the same transport give the same
    result whatever they have configured. *)
Theorem query_explicit_overrides_config (h h' : host) (function : string)
    (api_url api_token : pyval) (auth : bool) (args : pyval) (method : string)
    (header_dict : option (gmap string pyval)) (data : pyval) :
  (∀ r, http_query h r = http_query h' r) →
  (∀ b u f, urljoin h b u f = urljoin h' b u f) →
  truthy api_url = true →
  (auth = true → truthy api_token = true) →
  _query h function api_url api_token auth args method header_dict data
  = _query h' function api_url api_token auth args method header_dict data.
Proof.
  intros Hq Hj Hu Ht. rewrite !query_unfold.
  unfold resolve_url, resolve_token. rewrite Hu. destruct auth.
  - rewrite (Ht eq_refl). cbn. rewrite Hu, (Ht eq_refl). cbn.
    by apply query_send_ext.
  - cbn. rewrite Hu. cbn. by apply query_send_ext.
Qed.

Lemma query_explicit_overrides_config_witness :
  _query (example_host example_config ∅) "components/3"
    (PStr "https://status.test.com/") (PStr "secret") true PNone "DELETE"
    None PNone
  = _query (example_host ∅ ∅) "components/3"
      (PStr "https://status.test.com/") (PStr "secret") true PNone "DELETE"
      None PNone.
Proof.
  apply query_explicit_overrides_config; reflexivity.
Defined.

Lemma query_result_inv (answer : gmap string pyval) (r : retval) :
  query_result answer = Returned r →
  match r with
  | RetTrue => answer !! "status" = Some (PInt 204)
  | RetDict message true =>
      answer !! "status" = Some (PInt 200) ∧
      ∃ body, answer !! "dict" = Some (PDict body) ∧
              body !! "error" = None ∧
              message = default PNone (body !! "data")
  | RetDict message false =>
      (answer !! "status" = Some (PInt 200) ∧
       ∃ body, answer !! "dict" = Some (PDict body) ∧
               body !! "error" = Some message) ∨
      (answer !! "status" ≠ Some (PInt 200) ∧
       answer !! "status" ≠ Some (PInt 204) ∧
       answer !! "error" = Some message)
  end.
Proof.
  unfold query_result.
  destruct (status_is OK answer) eqn:Hok.
  - apply status_is_spec in Hok. unfold getitem at 1.
    destruct (answer !! "dict") as [[| | |s|l|body]|] eqn:Hdict;
      simpl; try discriminate.
    + by destruct (substring_of "error" s).
    + by destruct (existsb (is_str "error") l).
    + unfold mbind, outcome_bind, getitem.
      destruct (body !! "error") as [e|] eqn:He; simpl.
      * intros [= <-]. left. split; [done|]. by exists body.
      * intros [= <-]. split; [done|]. by exists body.
  - destruct (status_is NO_CONTENT answer) eqn:Hnc.
    + apply status_is_spec in Hnc. by intros [= <-].
    + destruct (answer !! "error") as [e|] eqn:He; [|discriminate].
      intros [= <-]. right. split; [|split; [|done]].
      * intros H. apply (proj2 (status_is_spec OK _)) in H. congruence.
      * intros H. apply (proj2 (status_is_spec NO_CONTENT _)) in H. congruence.
Qed.

(** X11.  What a returned value says about the exchange.  The bare [True]
    comes from a 204 answer only.  A dict with [res] true comes only from
    a 200 answer whose decoded body is a dict without [error], and its
    message is the [data] entry of that body.  A dict with [res] false is
    either the missing-key failure with no request issued, or carries the
    [error] entry of a 200 body, or the [error] entry of a non-200,
    non-204 answer. *)
Theorem query_returned_inversion (h : host) (function : string)
    (api_url api_token : pyval) (auth : bool) (args : pyval) (method : string)
    (header_dict : option (gmap string pyval)) (data : pyval) (r : retval) :
  result (_query h function api_url api_token auth args method header_dict data)
  = Returned r →
  (sent (_query h function api_url api_token auth args method header_dict data)
   = [] ∧ r = no_key) ∨
  ∃ req,
    sent (_query h function api_url api_token auth args method header_dict data)
    = [req] ∧
    match r with
    | RetTrue => http_query h req !! "status" = Some (PInt 204)
    | RetDict message true =>
        http_query h req !! "status" = Some (PInt 200) ∧
        ∃ body, http_query h req !! "dict" = Some (PDict body) ∧
                body !! "error" = None ∧
                message = default PNone (body !! "data")
    | RetDict message false =>
        (http_query h req !! "status" = Some (PInt 200) ∧
         ∃ body, http_query h req !! "dict" = Some (PDict body) ∧
                 body !! "error" = Some message) ∨
        (http_query h req !! "status" ≠ Some (PInt 200) ∧
         http_query h req !! "status" ≠ Some (PInt 204) ∧
         http_query h req !! "error" = Some message)
    end.
Proof.
  rewrite query_unfold.
  destruct (truthy (resolve_url h api_url) && _)%bool.
  - unfold query_send.
    destruct (urljoin h (resolve_url h api_url) (PStr "/api/v1/") true)
      as [base_url|e]; [|discriminate].
    rewrite io_bind_returned.
    destruct (urljoin h base_url (PStr function) false) as [url|e];
      [|discriminate].
    rewrite io_bind_returned. simpl. intros Hres. right.
    eexists. split; [reflexivity|]. by apply query_result_inv.
  - simpl. intros [= <-]. by left.
Qed.

Lemma query_returned_inversion_witness :
  (sent (get_components
           (example_host example_config
              {[ "status" := PInt 200; "dict" := PDict components_body ]})
           PNone PNone PNone) = [] ∧
   RetDict (PList [PDict {[ "id" := PInt 1; "name" := PStr "API" ]}]) true
   = no_key) ∨
  ∃ req,
    sent (get_components
            (example_host example_config
               {[ "status" := PInt 200; "dict" := PDict components_body ]})
            PNone PNone PNone) = [req] ∧
    (http_query (example_host example_config
                   {[ "status" := PInt 200; "dict" := PDict components_body ]})
       req !! "status" = Some (PInt 200) ∧
     ∃ body,
       http_query (example_host example_config
                     {[ "status" := PInt 200; "dict" := PDict components_body ]})
         req !! "dict" = Some (PDict body) ∧
       body !! "error" = None ∧
       PList [PDict {[ "id" := PInt 1; "name" := PStr "API" ]}]
       = default PNone (body !! "data")).
Proof.
  apply (query_returned_inversion
           (example_host example_config
              {[ "status" := PInt 200; "dict" := PDict components_body ]})
           "components" PNone PNone false PNone "GET" None PNone
           (RetDict (PList [PDict {[ "id" := PInt 1; "name" := PStr "API" ]}])
                    true)).
  reflexivity.
Defined.

(** ** Sequencing in [io] *)

Lemma io_bind_lift {A B} (m : outcome A) (f : A → io B) :
  lift m ≫= f = match m with
                | Returned a => f a
                | Raised e => IO [] (Raised e)
                end.
Proof. destruct m; [apply io_bind_returned|reflexivity]. Qed.

Lemma io_bind_ret {A B} (a : A) (f : A → io B) : mret a ≫= f = f a.
Proof. apply io_bind_returned. Qed.

Lemma io_bind_throw {A B} (e : exn) (f : A → io B) :
  throw e ≫= f = IO [] (Raised e).
Proof. reflexivity. Qed.

Lemma io_bind_ext {A B} (m : io A) (f g : A → io B) :
  (∀ a, f a = g a) → m ≫= f = m ≫= g.
Proof.
  intros Hfg. unfold mbind, io_bind. destruct (result m); [|done].
  by rewrite Hfg.
Qed.

(** Rewrites the binds of a wrapper in [H] and splits on each fallible
    step, dropping the cases in which [H] is absurd. *)
#[local] Ltac io_inv H :=
  repeat (first
    [ match goal with
      | Hc : call_build_args _ _ _ = Returned _ |- _ =>
          apply call_build_args_returned in Hc as [_ Hc]
      end
    | rewrite io_bind_lift in H
    | rewrite io_bind_ret in H
    | rewrite io_bind_throw in H
    | match type of H with
      | context [match ?m with Returned _ => _ | Raised _ => _ end] =>
          destruct m eqn:?
      | context [with_args ?t _] =>
          is_var t; destruct t; unfold with_args in H
      | context [if truthy ?v then _ else _] => destruct (truthy v) eqn:?
      | context [match ?d !! ?k with Some _ => _ | None => _ end] =>
          destruct (d !! k) eqn:?
      end ];
    cbv beta iota in H; try (exfalso; simpl in H; discriminate H)).

(** The same on the goal. *)
#[local] Ltac io_cases :=
  repeat (first
    [ rewrite io_bind_lift
    | rewrite io_bind_ret
    | rewrite io_bind_throw
    | match goal with
      | |- context [match ?m with Returned _ => _ | Raised _ => _ end] =>
          destruct m eqn:?
      | |- context [with_args ?t _] => is_var t; destruct t; unfold with_args
      | |- context [if truthy ?v then _ else _] => destruct (truthy v) eqn:?
      | |- context [match ?d !! ?k with Some _ => _ | None => _ end] =>
          destruct (d !! k) eqn:?
      end ];
    cbv beta iota).

(** ** Reading *)

Lemma query_noauth_token (h : host) (function : string)
    (api_url api_token api_token' : pyval) (args : pyval) (method : string)
    (header_dict : option (gmap string pyval)) (data : pyval) :
  _query h function api_url api_token false args method header_dict data
  = _query h function api_url api_token' false args method header_dict data.
Proof. reflexivity. Qed.

(** X12.  The list and get operations take an [api_token] and never use
    it: the result is the same for every token. *)
Theorem read_operations_ignore_token (h : host)
    (metric_id id api_url api_token api_token' : pyval) :
  get_components h id api_url api_token
  = get_components h id api_url api_token' ∧
  get_components_groups h id api_url api_token
  = get_components_groups h id api_url api_token' ∧
  get_incidents h id api_url api_token
  = get_incidents h id api_url api_token' ∧
  get_metrics h id api_url api_token
  = get_metrics h id api_url api_token' ∧
  get_metrics_points h metric_id id api_url api_token
  = get_metrics_points h metric_id id api_url api_token'.
Proof.
  repeat split; apply io_bind_ext; intros function;
    apply query_noauth_token.
Qed.

(** X13.  An id that is false in Python, such as 0, is no id: the
    operation asks for the whole collection, as with [None]. *)
Theorem get_with_falsy_id_lists (h : host)
    (metric_id id api_url api_token : pyval) :
  truthy id = false →
  get_components h id api_url api_token
  = get_components h PNone api_url api_token ∧
  get_components_groups h id api_url api_token
  = get_components_groups h PNone api_url api_token ∧
  get_incidents h id api_url api_token
  = get_incidents h PNone api_url api_token ∧
  get_metrics h id api_url api_token
  = get_metrics h PNone api_url api_token ∧
  get_metrics_points h metric_id id api_url api_token
  = get_metrics_points h metric_id PNone api_url api_token.
Proof.
  intros Hid.
  unfold get_components, get_components_groups, get_incidents, get_metrics,
    get_metrics_points.
  rewrite Hid. done.
Qed.

Lemma get_with_falsy_id_lists_witness :
  sent (get_components
          (example_host example_config ∅) (PInt 0) PNone PNone)
  = [get_components_request].
Proof.
  rewrite (proj1 (get_with_falsy_id_lists (example_host example_config ∅)
                    PNone (PInt 0) PNone PNone eq_refl)).
  reflexivity.
Defined.

(** X14.  With an id, [get_metrics_points] raises [NameError] for
    [metric_ic] and issues no request: a single metric point cannot be
    read. *)
Theorem get_metrics_points_by_id_raises (h : host)
    (metric_id id api_url api_token : pyval) :
  truthy id = true →
  get_metrics_points h metric_id id api_url api_token
  = IO [] (Raised (NameError "metric_ic")).
Proof.
  intros Hid. unfold get_metrics_points. by rewrite Hid.
Qed.

Lemma get_metrics_points_by_id_raises_witness :
  get_metrics_points (example_host example_config ∅)
    (PInt 2) (PInt 3) PNone PNone
  = IO [] (Raised (NameError "metric_ic")).
Proof.
  apply get_metrics_points_by_id_raises. reflexivity.
Defined.

Lemma query_request_shape (h : host) (function : string)
    (api_url api_token : pyval) (auth : bool) (args : pyval) (method : string)
    (header_dict : option (gmap string pyval)) (data : pyval) (req : request) :
  sent (_query h function api_url api_token auth args method header_dict data)
  = [req] →
  req_method req = method ∧
  req_data req = data ∧
  req_params req = match args with PDict d => d | _ => ∅ end ∧
  req_header_dict req
  = request_headers auth (if auth then resolve_token h api_token else api_token)
      header_dict ∧
  (auth = true → truthy (resolve_token h api_token) = true).
Proof.
  intros (_ & Htok & Hsend)%query_request.
  by apply query_send_request in Hsend as (_ & _ & _ & -> & -> & -> & ->).
Qed.

(** X15.  Every request of [ping] and of a list or get operation is a GET
    with no parameters, no data and no header: the token is not sent
    even when one is passed or configured. *)
Theorem read_requests_shape (h : host)
    (metric_id id api_url api_token : pyval) (req : request) :
  sent (ping h api_url) = [req] ∨
  sent (get_components h id api_url api_token) = [req] ∨
  sent (get_components_groups h id api_url api_token) = [req] ∨
  sent (get_incidents h id api_url api_token) = [req] ∨
  sent (get_metrics h id api_url api_token) = [req] ∨
  sent (get_metrics_points h metric_id id api_url api_token) = [req] →
  req_method req = "GET" ∧ req_params req = ∅ ∧ req_data req = PNone ∧
  req_header_dict req = ∅.
Proof.
  unfold ping, get_components, get_components_groups, get_incidents,
    get_metrics, get_metrics_points.
  intros H.
  repeat (destruct H as [H|H]); io_inv H;
    by apply query_request_shape in H as (-> & -> & -> & -> & _).
Qed.

Lemma read_requests_shape_witness :
  req_method get_components_request = "GET" ∧
  req_params get_components_request = ∅ ∧
  req_data get_components_request = PNone ∧
  req_header_dict get_components_request = ∅.
Proof.
  apply (read_requests_shape (example_host example_config ∅)
           PNone PNone PNone (PStr "peWcBiMOS9HrZG15") get_components_request).
  right. left. reflexivity.
Defined.

(** ** Writing *)

Lemma build_args_field (obj method : string) (sch : schema)
    (kwargs args : gmap string pyval) (k : string) :
  schema_of obj method = Some sch →
  _build_args obj method kwargs = Returned (BuildData args) →
  args !! k = assoc k sch ≫= field_value kwargs k.
Proof. intros Hsch Hrun. by apply (build_args_lookup obj method). Qed.

Lemma build_args_some_missing (obj method : string) (sch : schema)
    (kwargs : gmap string pyval) :
  schema_of obj method = Some sch →
  (∃ k c, (k, c) ∈ sch ∧ is_missing kwargs k c) →
  ∃ k' c', (k', c') ∈ sch ∧ is_missing kwargs k' c' ∧
           _build_args obj method kwargs
           = Returned (BuildMissing (missing_msg k')).
Proof.
  intros Hsch Hex. rewrite (build_args_schema _ _ _ _ Hsch).
  destruct (build_loop_some_missing kwargs sch ∅ Hex)
    as (k' & c' & Hin & Hmiss & ->).
  by exists k', c'.
Qed.

(** X16.  An add operation whose keyword arguments lack a mandatory field
    without default, and have no keyword named [obj] or [method], returns
    the failure dict naming such a field and issues no request; neither
    the status checks nor the formatting of the path are reached. *)
Theorem add_missing_mandatory_sends_nothing (h : host)
    (metric_id api_url api_token : pyval) (kwargs : gmap string pyval)
    (obj : string) (sch : schema) :
  schema_of obj "add" = Some sch →
  keyword_clash kwargs = false →
  (∃ k c, (k, c) ∈ sch ∧ is_missing kwargs k c) →
  ∃ k' c',
    (k', c') ∈ sch ∧ is_missing kwargs k' c' ∧
    (obj = "components" →
     add_component h api_url api_token kwargs
     = IO [] (Returned (RetDict (PStr (missing_msg k')) false))) ∧
    (obj = "components.groups" →
     add_component_group h api_url api_token kwargs
     = IO [] (Returned (RetDict (PStr (missing_msg k')) false))) ∧
    (obj = "incidents" →
     add_incident h api_url api_token kwargs
     = IO [] (Returned (RetDict (PStr (missing_msg k')) false))) ∧
    (obj = "metrics" →
     add_metric h api_url api_token kwargs
     = IO [] (Returned (RetDict (PStr (missing_msg k')) false))) ∧
    (obj = "metrics.points" →
     add_metric_point h metric_id api_url api_token kwargs
     = IO [] (Returned (RetDict (PStr (missing_msg k')) false))).
Proof.
  intros Hsch Hclash Hex.
  destruct (build_args_some_missing _ _ _ _ Hsch Hex)
    as (k' & c' & Hin & Hmiss & Hrun).
  exists k', c'. split; [done|]. split; [done|].
  repeat split; intros ->;
    unfold add_component, add_component_group, add_incident, add_metric,
      add_metric_point;
    by rewrite (call_build_args_no_clash _ _ _ Hclash), Hrun, io_bind_returned.
Qed.

(** A point without [value], for a metric id that is no number. *)
Lemma add_missing_mandatory_sends_nothing_witness :
  add_metric_point (example_host example_config ∅)
    (PStr "cpu") PNone PNone {[ "timestamp" := PInt 1446000000 ]}
  = IO [] (Returned (RetDict (PStr "Mandatory params value is missing") false)).
Proof.
  destruct (add_missing_mandatory_sends_nothing
              (example_host example_config ∅) (PStr "cpu") PNone PNone
              {[ "timestamp" := PInt 1446000000 ]}
              "metrics.points" [ ("value", fld true) ] eq_refl)
    as (k' & c' & Hin & _ & _ & _ & _ & _ & Hpoint).
  - reflexivity.
  - exists "value", (fld true). split; [left|]. repeat split.
  - in_schema Hin. exact (Hpoint eq_refl).
Defined.

(** X17.  [add_component] sends only what it has validated: when it
    issues a request, the request is a POST, [name] and [status] were
    supplied and are sent as supplied, and [int(status)] lies in 1..4. *)
Theorem add_component_sent_valid_status (h : host)
    (api_url api_token : pyval) (kwargs : gmap string pyval) (req : request) :
  sent (add_component h api_url api_token kwargs) = [req] →
  req_method req = "POST" ∧
  is_Some (kwargs !! "name") ∧
  req_params req !! "name" = kwargs !! "name" ∧
  ∃ status z,
    kwargs !! "status" = Some status ∧
    req_params req !! "status" = Some status ∧
    py_int status = Returned z ∧ (1 ≤ z ≤ 4)%Z.
Proof.
  intros H. unfold add_component in H. io_inv H.
  match goal with
  | Hb : _build_args _ _ _ = Returned (BuildData ?args),
    Hs : getitem ?args _ = Returned ?status,
    Hc : _check_component_status ?status = Returned _ |- _ =>
      pose proof (build_args_field "components" "add" _ _ _ "name"
                    eq_refl Hb) as Hname;
      pose proof (build_args_field "components" "add" _ _ _ "status"
                    eq_refl Hb) as Hstatus;
      unfold getitem in Hs; rename Hc into Hcheck; rename Hs into Hget
  end.
  apply query_request_shape in H as (-> & _ & -> & _).
  simpl in Hname, Hstatus. unfold field_value in Hname, Hstatus.
  simpl in Hname, Hstatus.
  destruct (kwargs !! "status") as [s|] eqn:Hks;
    [|rewrite Hstatus in Hget; discriminate].
  rewrite Hstatus in Hget. injection Hget as <-.
  destruct (kwargs !! "name") as [n|] eqn:Hkn.
  - repeat split; [by eexists|done|].
    match goal with u : unit |- _ => destruct u end.
    apply check_component_status_passes in Hcheck as (z & Hz & Hrange).
    by exists s, z.
  - exfalso.
    match goal with
    | Hb : _build_args _ _ _ = Returned (BuildData _) |- _ =>
        rewrite (build_args_schema "components" "add" _ kwargs eq_refl) in Hb;
        simpl in Hb; rewrite Hkn in Hb; discriminate Hb
    end.
Qed.

Lemma add_component_sent_valid_status_witness :
  ∃ status z,
    api_kwargs 1 !! "status" = Some status ∧
    py_int status = Returned z ∧ (1 ≤ z ≤ 4)%Z.
Proof.
  destruct (add_component_sent_valid_status (example_host example_config ∅)
              PNone PNone (api_kwargs 1)
              {| req_url := PStr "https://status.example.com/api/v1/components";
                 req_method := "POST";
                 req_params := {[ "name" := PStr "API"; "status" := PInt 1;
                                  "enabled" := PBool true ]};
                 req_data := PNone;
                 req_header_dict :=
                   {[ "X-Cachet-Token" := PStr "peWcBiMOS9HrZG15" ]} |}
              eq_refl)
    as (_ & _ & _ & status & z & Hk & _ & Hz & Hrange).
  by exists status, z.
Defined.

Lemma fmt_d_number (v : pyval) (s : string) :
  fmt_d v = Returned s → is_number v = true.
Proof. by destruct v. Qed.

Lemma check_incident_status_passes (data : pyval) :
  _check_incident_status data = Returned tt →
  ∃ z, py_int data = Returned z ∧ (0 ≤ z ≤ 4)%Z.
Proof.
  unfold _check_incident_status, mbind, outcome_bind.
  destruct (py_int data) as [z|e]; [|done].
  destruct ((z <? 0)%Z || (4 <? z)%Z)%bool eqn:Hb; [done|]. intros _.
  exists z. split; [done|].
  apply orb_false_iff in Hb as [Hlo%Z.ltb_ge Hhi%Z.ltb_ge]. lia.
Qed.

(** X18.  [update_component] issues a request only when [status] was
    supplied and the id is a number; the request is a PUT and sends the
    status as supplied.  A true status has passed the check for 1..4; a
    status that is false in Python, such as 0, is sent unchecked. *)
Theorem update_component_sent_status (h : host)
    (id api_url api_token : pyval) (kwargs : gmap string pyval)
    (req : request) :
  sent (update_component h id api_url api_token kwargs) = [req] →
  req_method req = "PUT" ∧
  is_number id = true ∧
  ∃ status,
    kwargs !! "status" = Some status ∧
    req_params req !! "status" = Some status ∧
    (truthy status = false ∨
     ∃ z, py_int status = Returned z ∧ (1 ≤ z ≤ 4)%Z).
Proof.
  intros H. unfold update_component in H. io_inv H.
  all: match goal with
       | Hb : _build_args _ _ _ = Returned (BuildData ?args),
         Hs : getitem ?args _ = Returned ?status,
         Hf : fmt_d _ = Returned _ |- _ =>
           pose proof (build_args_field "components" "update" _ _ _ "status"
                         eq_refl Hb) as Hstatus;
           unfold getitem in Hs; apply fmt_d_number in Hf
       end.
  all: apply query_request_shape in H as (-> & _ & -> & _).
  all: simpl in Hstatus; unfold field_value in Hstatus; simpl in Hstatus.
  all: destruct (kwargs !! "status") as [s|] eqn:Hks;
         [|match goal with Hs : context [_ !! "status"] |- _ =>
             rewrite Hstatus in Hs; discriminate Hs end].
  all: match goal with Hs : context [_ !! "status"] |- _ =>
         rewrite Hstatus in Hs; injection Hs as <- end.
  all: split; [done|]; split; [done|]; exists s; split; [done|];
         split; [done|].
  - right.
    match goal with
    | u : unit, Hc : _check_component_status _ = Returned _ |- _ =>
        destruct u; by apply check_component_status_passes in Hc
    end.
  - by left.
Qed.

Lemma update_component_sent_status_witness :
  ∃ status,
    ({[ "status" := PInt 0 ]} : gmap string pyval) !! "status" = Some status ∧
    (truthy status = false ∨
     ∃ z, py_int status = Returned z ∧ (1 ≤ z ≤ 4)%Z).
Proof.
  destruct (update_component_sent_status (example_host example_config ∅)
              (PInt 1) PNone PNone {[ "status" := PInt 0 ]}
              {| req_url := PStr "https://status.example.com/api/v1/components/1";
                 req_method := "PUT";
                 req_params := {[ "status" := PInt 0 ]};
                 req_data := PNone;
                 req_header_dict :=
                   {[ "X-Cachet-Token" := PStr "peWcBiMOS9HrZG15" ]} |})
    as (_ & _ & status & Hk & _ & Hcheck).
  - reflexivity.
  - by exists status.
Defined.

(** X19.  [update_incident] issues a request only when [status] was
    supplied and the id is a number; a true status has passed the check
    for 0..4; and the request always carries [visible]: the supplied
    value, else the default 1. *)
Theorem update_incident_sent_status (h : host)
    (id api_url api_token : pyval) (kwargs : gmap string pyval)
    (req : request) :
  sent (update_incident h id api_url api_token kwargs) = [req] →
  req_method req = "PUT" ∧
  is_number id = true ∧
  req_params req !! "visible" = Some (default (PInt 1) (kwargs !! "visible")) ∧
  ∃ status,
    kwargs !! "status" = Some status ∧
    req_params req !! "status" = Some status ∧
    (truthy status = false ∨
     ∃ z, py_int status = Returned z ∧ (0 ≤ z ≤ 4)%Z).
Proof.
  intros H. unfold update_incident in H. io_inv H.
  all: match goal with
       | Hb : _build_args _ _ _ = Returned (BuildData ?args),
         Hs : getitem ?args _ = Returned ?status,
         Hf : fmt_d _ = Returned _ |- _ =>
           pose proof (build_args_field "incidents" "update" _ _ _ "status"
                         eq_refl Hb) as Hstatus;
           pose proof (build_args_field "incidents" "update" _ _ _ "visible"
                         eq_refl Hb) as Hvisible;
           unfold getitem in Hs; apply fmt_d_number in Hf
       end.
  all: apply query_request_shape in H as (-> & _ & -> & _).
  all: simpl in Hstatus, Hvisible; unfold field_value in Hstatus, Hvisible;
         simpl in Hstatus, Hvisible.
  all: destruct (kwargs !! "status") as [s|] eqn:Hks;
         [|match goal with Hs : context [_ !! "status"] |- _ =>
             rewrite Hstatus in Hs; discriminate Hs end].
  all: match goal with Hs : context [_ !! "status"] |- _ =>
         rewrite Hstatus in Hs; injection Hs as <- end.
  all: split; [done|]; split; [done|];
         split; [by rewrite Hvisible; destruct (kwargs !! "visible")|];
         exists s; split; [done|]; split; [done|].
  - right.
    match goal with
    | u : unit, Hc : _check_incident_status _ = Returned _ |- _ =>
        destruct u; by apply check_incident_status_passes in Hc
    end.
  - by left.
Qed.

Lemma update_incident_sent_status_witness :
  ({[ "status" := PInt 4; "visible" := PInt 1 ]} : gmap string pyval)
    !! "visible" = Some (default (PInt 1)
                           (({[ "status" := PInt 4 ]} : gmap string pyval)
                              !! "visible")).
Proof.
  destruct (update_incident_sent_status (example_host example_config ∅)
              (PInt 7) PNone PNone {[ "status" := PInt 4 ]}
              {| req_url := PStr "https://status.example.com/api/v1/incidents/7";
                 req_method := "PUT";
                 req_params := {[ "status" := PInt 4; "visible" := PInt 1 ]};
                 req_data := PNone;
                 req_header_dict :=
                   {[ "X-Cachet-Token" := PStr "peWcBiMOS9HrZG15" ]} |})
    as (_ & _ & Hvisible & _).
  - reflexivity.
  - exact Hvisible.
Defined.

(** X20.  [add_incident] sends only what it has validated: when it issues
    a request, the request is a POST, [status] was supplied and
    [int(status)] lies in 0..4, [visible] is sent with the supplied value
    or the default 1, and [component_status] is sent as supplied; a true
    [component_status] has passed the check for 1..4, one that is false
    in Python, such as 0, is sent unchecked. *)
Theorem add_incident_sent_valid (h : host)
    (api_url api_token : pyval) (kwargs : gmap string pyval) (req : request) :
  sent (add_incident h api_url api_token kwargs) = [req] →
  req_method req = "POST" ∧
  req_params req !! "visible" = Some (default (PInt 1) (kwargs !! "visible")) ∧
  (∃ status z,
     kwargs !! "status" = Some status ∧
     req_params req !! "status" = Some status ∧
     py_int status = Returned z ∧ (0 ≤ z ≤ 4)%Z) ∧
  req_params req !! "component_status" = kwargs !! "component_status" ∧
  (∀ component_status,
     kwargs !! "component_status" = Some component_status →
     truthy component_status = false ∨
     ∃ z, py_int component_status = Returned z ∧ (1 ≤ z ≤ 4)%Z).
Proof.
  intros H. unfold add_incident in H. io_inv H.
  all: match goal with
       | Hb : _build_args _ _ _ = Returned (BuildData ?args),
         Hs : getitem ?args _ = Returned ?status,
         Hi : _check_incident_status ?status = Returned ?u |- _ =>
           pose proof (build_args_field "incidents" "add" _ _ _ "status"
                         eq_refl Hb) as Hstatus;
           pose proof (build_args_field "incidents" "add" _ _ _ "visible"
                         eq_refl Hb) as Hvisible;
           pose proof (build_args_field "incidents" "add" _ _ _
                         "component_status" eq_refl Hb) as Hcs;
           unfold getitem in Hs; destruct u;
           apply check_incident_status_passes in Hi as (z & Hz & Hrange)
       end.
  all: apply query_request_shape in H as (-> & _ & -> & _).
  all: simpl in Hstatus, Hvisible, Hcs;
         unfold field_value in Hstatus, Hvisible, Hcs;
         simpl in Hstatus, Hvisible, Hcs.
  all: assert (Hcs' : ∀ args : gmap string pyval,
                 args !! "component_status"
                 = match kwargs !! "component_status" with
                   | Some v => Some v
                   | None => None
                   end →
                 args !! "component_status" = kwargs !! "component_status")
         by (intros ? ->; by destruct (kwargs !! "component_status")).
  all: apply Hcs' in Hcs; clear Hcs'.
  all: destruct (kwargs !! "status") as [s|] eqn:Hks;
         [|match goal with Hs : context [_ !! "status"] |- _ =>
             rewrite Hstatus in Hs; discriminate Hs end].
  all: match goal with Hs : context [_ !! "status"] |- _ =>
         rewrite Hstatus in Hs; injection Hs as <- end.
  all: split; [done|];
         split; [by rewrite Hvisible; destruct (kwargs !! "visible")|];
         split; [by exists s, z|]; split; [done|].
  all: match goal with
       | Ha : _ !! "component_status" = Some _ |- _ =>
           rewrite Hcs in Ha; rename Ha into Hkc
       | Ha : _ !! "component_status" = None |- _ =>
           rewrite Hcs in Ha; rename Ha into Hkc
       end.
  all: intros cs Hk; rewrite Hk in Hkc.
  all: first [discriminate Hkc | injection Hkc as <-].
  - right.
    match goal with
    | u : unit, Hc : _check_component_status _ = Returned _ |- _ =>
        destruct u; by apply check_component_status_passes in Hc
    end.
  - by left.
Qed.

Definition incident_kwargs : gmap string pyval :=
  {[ "name" := PStr "outage"; "message" := PStr "database is down";
     "status" := PInt 2; "component_status" := PInt 0 ]}.

Lemma add_incident_sent_valid_witness :
  ∃ status z,
    incident_kwargs !! "status" = Some status ∧
    py_int status = Returned z ∧ (0 ≤ z ≤ 4)%Z.
Proof.
  destruct (add_incident_sent_valid (example_host example_config ∅)
              PNone PNone incident_kwargs
              {| req_url := PStr "https://status.example.com/api/v1/incidents";
                 req_method := "POST";
                 req_params := <[ "visible" := PInt 1 ]> incident_kwargs;
                 req_data := PNone;
                 req_header_dict :=
                   {[ "X-Cachet-Token" := PStr "peWcBiMOS9HrZG15" ]} |})
    as (_ & _ & (status & z & Hk & _ & Hz & Hrange) & _).
  - reflexivity.
  - by exists status, z.
Defined.

(** X21.  A delete operation issues a request only for an id that is a
    number; the request is a DELETE with no parameters and no data, and
    its only header is [X-Cachet-Token] with the resolved token, which is
    true. *)
Theorem delete_sent_shape (h : host) (id api_url api_token : pyval)
    (req : request) :
  sent (delete_component h id api_url api_token) = [req] ∨
  sent (delete_component_group h id api_url api_token) = [req] ∨
  sent (delete_incident h id api_url api_token) = [req] ∨
  sent (delete_metric h id api_url api_token) = [req] →
  is_number id = true ∧
  req_method req = "DELETE" ∧ req_params req = ∅ ∧ req_data req = PNone ∧
  req_header_dict req = {[ "X-Cachet-Token" := resolve_token h api_token ]} ∧
  truthy (resolve_token h api_token) = true.
Proof.
  unfold delete_component, delete_component_group, delete_incident,
    delete_metric.
  intros H. repeat (destruct H as [H|H]); io_inv H.
  all: match goal with Hf : fmt_d _ = Returned _ |- _ =>
         apply fmt_d_number in Hf end.
  all: apply query_request_shape in H as (-> & -> & -> & -> & Htok).
  all: repeat split; try done; try (by apply Htok).
  all: unfold request_headers; simpl; by rewrite insert_empty.
Qed.

Lemma delete_sent_shape_witness :
  is_number (PInt 3) = true ∧
  req_method delete_component_request = "DELETE" ∧
  req_params delete_component_request = ∅ ∧
  req_data delete_component_request = PNone ∧
  req_header_dict delete_component_request
  = {[ "X-Cachet-Token" :=
         resolve_token (example_host example_config ∅) PNone ]} ∧
  truthy (resolve_token (example_host example_config ∅) PNone) = true.
Proof.
  apply (delete_sent_shape (example_host example_config ∅) (PInt 3)
           PNone PNone delete_component_request).
  left. reflexivity.
Defined.

(** ** All operations *)

(** The operations that read, and those that write. *)
Definition reads (h : host) (metric_id id api_url api_token : pyval)
    : list (io retval) :=
  [ ping h api_url;
    get_components h id api_url api_token;
    get_components_groups h id api_url api_token;
    get_incidents h id api_url api_token;
    get_metrics h id api_url api_token;
    get_metrics_points h metric_id id api_url api_token ].

Definition writes (h : host) (metric_id id api_url api_token : pyval)
    (kwargs : gmap string pyval) : list (io retval) :=
  [ add_component h api_url api_token kwargs;
    update_component h id api_url api_token kwargs;
    delete_component h id api_url api_token;
    add_component_group h api_url api_token kwargs;
    update_component_group h id api_url api_token kwargs;
    delete_component_group h id api_url api_token;
    add_incident h api_url api_token kwargs;
    update_incident h id api_url api_token kwargs;
    delete_incident h id api_url api_token;
    add_metric h api_url api_token kwargs;
    delete_metric h id api_url api_token;
    add_metric_point h metric_id api_url api_token kwargs;
    delete_metric_point h metric_id id api_url api_token ].

#[local] Ltac unfold_ops :=
  unfold ping, get_components, get_components_groups, get_incidents,
    get_metrics, get_metrics_points, add_component, update_component,
    delete_component, add_component_group, update_component_group,
    delete_component_group, add_incident, update_incident, delete_incident,
    add_metric, delete_metric, add_metric_point, delete_metric_point.

Lemma query_no_token_sent (h : host) (function : string)
    (api_url api_token : pyval) (args : pyval) (method : string)
    (header_dict : option (gmap string pyval)) (data : pyval) :
  truthy (resolve_token h api_token) = false →
  sent (_query h function api_url api_token true args method header_dict data)
  = [].
Proof.
  intros Htok. rewrite query_unfold, Htok. simpl. by rewrite andb_false_r.
Qed.

(** X22.  Without a token nothing is written: when the [api_token]
    argument is false and neither token key of the configuration has a
    true value, no add, update or delete operation issues a request,
    whatever its other arguments. *)
Theorem writes_need_token (h : host) (metric_id id api_url api_token : pyval)
    (kwargs : gmap string pyval) :
  truthy api_token = false →
  truthy (config_get h "cachet.api_token") = false →
  truthy (config_get h "cachet:api_token") = false →
  Forall (λ op, sent op = []) (writes h metric_id id api_url api_token kwargs).
Proof.
  intros Harg Hdot Hcolon.
  assert (Htok : truthy (resolve_token h api_token) = false).
  { unfold resolve_token, py_or. by rewrite Harg, Hdot, Hcolon. }
  unfold writes. repeat constructor; unfold_ops; io_cases;
    try reflexivity; by apply query_no_token_sent.
Qed.

Lemma writes_need_token_witness :
  Forall (λ op, sent op = [])
    (writes (example_host
               {[ "cachet.api_url" := PStr "https://status.example.com" ]} ∅)
            (PInt 2) (PInt 3) PNone PNone (api_kwargs 1)).
Proof.
  apply writes_need_token; reflexivity.
Defined.

(** X23.  Every operation issues one request at most. *)
Theorem operations_send_at_most_one (h : host)
    (metric_id id api_url api_token : pyval) (kwargs : gmap string pyval) :
  Forall (λ op, (length (sent op) ≤ 1)%nat)
    (reads h metric_id id api_url api_token
     ++ writes h metric_id id api_url api_token kwargs)%list.
Proof.
  unfold reads, writes. simpl.
  repeat (apply Forall_cons_2); [..|apply Forall_nil_2];
    unfold_ops; io_cases; try (simpl; lia); apply query_at_most_one.
Qed.

(** X24.  [update_component_group] issues a request only for an id that
    is a number; the request is a PUT whose parameters are [name] and
    [order] as far as they were supplied and nothing else: the [None]
    defaults are not sent, other keys are dropped. *)
Theorem update_component_group_params (h : host)
    (id api_url api_token : pyval) (kwargs : gmap string pyval)
    (req : request) :
  sent (update_component_group h id api_url api_token kwargs) = [req] →
  req_method req = "PUT" ∧
  is_number id = true ∧
  req_params req !! "name" = kwargs !! "name" ∧
  req_params req !! "order" = kwargs !! "order" ∧
  ∀ k, k ≠ "name" → k ≠ "order" → req_params req !! k = None.
Proof.
  intros H. unfold update_component_group in H. io_inv H.
  match goal with
  | Hb : _build_args _ _ _ = Returned (BuildData ?args),
    Hf : fmt_d _ = Returned _ |- _ =>
      pose proof (build_args_lookup "components.groups" "update" _ _ _
                    eq_refl Hb) as Hlook;
      apply fmt_d_number in Hf
  end.
  apply query_request_shape in H as (-> & _ & -> & _).
  split; [done|]. split; [done|].
  assert (Hval : ∀ k, field_value kwargs k (fld_d false PNone) = kwargs !! k).
  { intros k. unfold field_value. by destruct (kwargs !! k). }
  split; [|split].
  - rewrite Hlook. apply Hval.
  - rewrite Hlook. apply Hval.
  - intros k Hname Horder. rewrite Hlook. simpl.
    destruct (String.eqb_spec k "name"); [done|].
    by destruct (String.eqb_spec k "order").
Qed.

Lemma update_component_group_params_witness :
  ({[ "name" := PStr "core" ]} : gmap string pyval) !! "order"
  = ({[ "name" := PStr "core"; "colour" := PStr "red" ]} : gmap string pyval)
      !! "order".
Proof.
  destruct (update_component_group_params (example_host example_config ∅)
              (PInt 5) PNone PNone
              {[ "name" := PStr "core"; "colour" := PStr "red" ]}
              {| req_url :=
                   PStr "https://status.example.com/api/v1/components/groups/5";
                 req_method := "PUT";
                 req_params := {[ "name" := PStr "core" ]};
                 req_data := PNone;
                 req_header_dict :=
                   {[ "X-Cachet-Token" := PStr "peWcBiMOS9HrZG15" ]} |})
    as (_ & _ & _ & Horder & _).
  - reflexivity.
  - exact Horder.
Defined.

(** X25.  [add_metric] issues a request only when [name], [suffix] and
    [description] were supplied; the request is a POST that sends them as
    supplied and always carries [default_value] and [display_chart]: the
    supplied values, else the defaults 0 and 1. *)
Theorem add_metric_defaults (h : host) (api_url api_token : pyval)
    (kwargs : gmap string pyval) (req : request) :
  sent (add_metric h api_url api_token kwargs) = [req] →
  req_method req = "POST" ∧
  Forall (λ k, is_Some (kwargs !! k) ∧ req_params req !! k = kwargs !! k)
         [ "name"; "suffix"; "description" ] ∧
  req_params req !! "default_value"
  = Some (default (PInt 0) (kwargs !! "default_value")) ∧
  req_params req !! "display_chart"
  = Some (default (PInt 1) (kwargs !! "display_chart")).
Proof.
  intros H. unfold add_metric in H. io_inv H.
  match goal with
  | Hb : _build_args _ _ _ = Returned (BuildData ?args) |- _ =>
      pose proof (build_args_lookup "metrics" "add" _ _ _ eq_refl Hb) as Hlook;
      rewrite (build_args_schema "metrics" "add" _ kwargs eq_refl) in Hb;
      simpl in Hb
  end.
  apply query_request_shape in H as (-> & _ & -> & _).
  split; [done|].
  destruct (kwargs !! "name") as [n|] eqn:Hn; [|done].
  destruct (kwargs !! "suffix") as [s|] eqn:Hs; [|done].
  destruct (kwargs !! "description") as [d|] eqn:Hd; [|done].
  split; [|split].
  - repeat constructor; try (by eexists); rewrite Hlook; simpl;
      unfold field_value; by rewrite ?Hn, ?Hs, ?Hd.
  - rewrite Hlook. simpl. unfold field_value.
    by destruct (kwargs !! "default_value").
  - rewrite Hlook. simpl. unfold field_value.
    by destruct (kwargs !! "display_chart").
Qed.

Definition metric_kwargs : gmap string pyval :=
  {[ "name" := PStr "load"; "suffix" := PStr "%";
     "description" := PStr "CPU load" ]}.

Lemma add_metric_defaults_witness :
  (<[ "default_value" := PInt 0 ]>
     (<[ "display_chart" := PInt 1 ]> metric_kwargs)) !! "default_value"
  = Some (default (PInt 0) (metric_kwargs !! "default_value")).
Proof.
  destruct (add_metric_defaults (example_host example_config ∅) PNone PNone
              metric_kwargs
              {| req_url := PStr "https://status.example.com/api/v1/metrics";
                 req_method := "POST";
                 req_params :=
                   <[ "default_value" := PInt 0 ]>
                     (<[ "display_chart" := PInt 1 ]> metric_kwargs);
                 req_data := PNone;
                 req_header_dict :=
                   {[ "X-Cachet-Token" := PStr "peWcBiMOS9HrZG15" ]} |})
    as (_ & _ & Hdefault & _).
  - reflexivity.
  - exact Hdefault.
Defined.
